(** * route53-ddns: the record resolution and registration logic

    A shallow embedding of the Lambda function [update-route53-host-records]
    ([helpers.py], [ec2_helpers.py], [route53_helpers.py], [lambda_function.py])
    and the properties of its tag model, domain resolver, zone locator,
    name/alias resolver, registration path and handler.

    Conventions of the embedding:
    - Python [str] is [string], read as ASCII text; [None] is [option]'s [None].
    - A [dict] used as a map is a [gmap]; the one dict the code iterates
      ([get_aliases]' result) is an insertion-ordered association list.
    - The boto3 clients and [os.environ] are explicit arguments. A client
      operation is a total function from its request to the part of the
      response the code reads; every call leaves an event in the trace.
      Failures of the transport are outside the model, except for
      [change_resource_record_sets], whose failure the code catches.
    - [log.<level>(template.format(args))] leaves a [Log] event holding the
      level, the template and the arguments. *)

From Stdlib Require Import Ascii String.
From stdpp Require Import base option list strings gmap.

(** ** Python string operations *)

Module Py.

(** [s.split(sep)] for a one-character separator. *)
Fixpoint split (sep : ascii) (s : string) : list string :=
  match s with
  | EmptyString => [EmptyString]
  | String c s' =>
      if Ascii.eqb c sep then EmptyString :: split sep s'
      else match split sep s' with
           | h :: t => String c h :: t
           | [] => [String c EmptyString]
           end
  end.

(** [sep.join(parts)]. *)
Fixpoint join (sep : string) (parts : list string) : string :=
  match parts with
  | [] => ""
  | [p] => p
  | p :: rest => p +:+ sep +:+ join sep rest
  end.

(** [c.isspace()] on ASCII. *)
Definition isspace (c : ascii) : bool :=
  let n := nat_of_ascii c in
  (Nat.leb 9 n && Nat.leb n 13) || (Nat.leb 28 n && Nat.leb n 32).

Fixpoint lstrip (s : string) : string :=
  match s with
  | EmptyString => EmptyString
  | String c s' => if isspace c then lstrip s' else s
  end.

Fixpoint rstrip (s : string) : string :=
  match s with
  | EmptyString => EmptyString
  | String c s' =>
      match rstrip s' with
      | EmptyString => if isspace c then EmptyString else String c EmptyString
      | r => String c r
      end
  end.

(** [s.strip()]. *)
Definition strip (s : string) : string := rstrip (lstrip s).

(** [c in s]. *)
Fixpoint contains (c : ascii) (s : string) : bool :=
  match s with
  | EmptyString => false
  | String c' s' => Ascii.eqb c' c || contains c s'
  end.

End Py.

Definition dot : ascii := "."%char.
Definition comma : ascii := ","%char.

(** ** Effects: a trace of events and an exception *)

Inductive level := INFO | WARN | ERROR | FATAL.

(** An argument interpolated into a log message. [AObj] is a value whose
    rendering is not modelled (a response dictionary, an exception). *)
Inductive logarg :=
| AStr (s : string)
| AOpt (o : option string)
| ANat (n : nat)
| AObj.

Inductive event :=
| Log (lvl : level) (template : string) (args : list logarg)
| DescribeInstances (instance_id : string)
| DescribeVpcs (vpc_id : string)
| DescribeDhcpOptions (dhcp_options_id : string)
| ListHostedZones
| GetHostedZone (zone_id : string)
| ChangeResourceRecordSets (zone_id action name type : string) (ttl : nat) (value : string).

Inductive exn :=
| Exception (msg : string)
| AttributeError (msg : string)
| IndexError (msg : string).

Inductive result (A : Type) :=
| Ok (a : A)
| Raise (e : exn).
Arguments Ok {A} a.
Arguments Raise {A} e.

Definition M (A : Type) : Type := list event * result A.

Definition trace {A} (m : M A) : list event := fst m.
Definition outcome {A} (m : M A) : result A := snd m.

Definition ret {A} (a : A) : M A := ([], Ok a).
Definition raise {A} (e : exn) : M A := ([], Raise e).
Definition emit (e : event) : M unit := ([e], Ok tt).
Definition bind {A B} (m : M A) (f : A -> M B) : M B :=
  match m with
  | (t, Ok a) => let '(t', r) := f a in (t ++ t', r)
  | (t, Raise e) => (t, Raise e)
  end.

#[global] Instance M_ret : MRet M := @ret.
#[global] Instance M_bind : MBind M := fun A B f m => bind m f.

Definition log (lvl : level) (template : string) (args : list logarg) : M unit :=
  emit (Log lvl template args).

(** ** helpers.py *)

Inductive setting :=
| dynamo_table_name
| account_state_tag
| account_enabled_values
| iam_role_tag
| default_iam_role
| hostname_tag_name_account_tag
| default_hostname_tag_name
| dns_domain_tag_name_account_tag
| default_dns_domain_tag_name
| aliases_tag_name_account_tag
| default_aliases_tag_name.

(** The [defaults] table: environment variable and default of each setting. *)
Definition defaults (s : setting) : string * string :=
  match s with
  | dynamo_table_name =>
      ("DYNAMO_TABLE_NAME", "update-route53-host-records")
  | account_state_tag =>
      ("ACCOUNT_STATE_TAG", "fn.aws.joshhogle.com/update-route53-host-records/account/state")
  | account_enabled_values =>
      ("ACCOUNT_ENABLED_VALUES", "enabled")
  | iam_role_tag =>
      ("IAM_ROLE_TAG", "fn.aws.joshhogle.com/update-route53-host-records/iam/role")
  | default_iam_role =>
      ("DEFAULT_IAM_ROLE", "STS-UpdateRoute53HostRecords")
  | hostname_tag_name_account_tag =>
      ("HOSTNAME_TAG_NAME_ACCOUNT_TAG", "fn.aws.joshhogle.com/update-route53-host-records/tags/hostname")
  | default_hostname_tag_name =>
      ("DEFAULT_HOSTNAME_TAG_NAME", "fn.aws.joshhogle.com/update-route53-host-records/hostname")
  | dns_domain_tag_name_account_tag =>
      ("DNS_DOMAIN_TAG_NAME_ACCOUNT_TAG", "fn.aws.joshhogle.com/update-route53-host-records/tags/dns_domain")
  | default_dns_domain_tag_name =>
      ("DEFAULT_DNS_DOMAIN_TAG_NAME", "fn.aws.joshhogle.com/update-route53-host-records/dns_domain")
  | aliases_tag_name_account_tag =>
      ("ALIASES_TAG_NAME_ACCOUNT_TAG", "fn.aws.joshhogle.com/update-route53-host-records/tags/aliases")
  | default_aliases_tag_name =>
      ("DEFAULT_ALIASES_TAG_NAME", "fn.aws.joshhogle.com/update-route53-host-records/aliases")
  end.

(** [get_setting]: the environment's value, else the default. *)
Definition get_setting (environ : gmap string string) (s : setting) : string :=
  match environ !! fst (defaults s) with
  | None => snd (defaults s)
  | Some value => value
  end.

(** A value found under ["Value"] or ["Values"] of a raw tag entry: the code
    stores whatever is there. *)
Inductive pyval :=
| PNone
| PStr (s : string)
| PList (items : list string).

(** The [is None] test on the values a tag entry may carry. *)
Class NoneTest (V : Type) := is_none : V -> bool.
#[global] Instance string_none : NoneTest string := fun _ => false.
#[global] Instance pyval_none : NoneTest pyval :=
  fun v => match v with PNone => true | _ => false end.

(** A raw tag entry; a field is [None] when the key is absent. *)
Record Tag (V : Type) := mkTag {
  Key : option string;
  Value : option V;
  Values : option V
}.
Arguments mkTag {V} _ _ _.
Arguments Key {V} _.
Arguments Value {V} _.
Arguments Values {V} _.

(** [t.get("Values", t.get("Value", None))]. *)
Definition tag_values {V} (t : Tag V) : option V :=
  match Values t with
  | Some v => Some v
  | None => Value t
  end.

(** One iteration of the loop of [tags_to_dict]. *)
Definition tags_to_dict_step {V} `{NoneTest V}
    (result : gmap string V) (t : Tag V) : gmap string V :=
  match Key t with
  | None => result
  | Some key =>
      match tag_values t with
      | None => result
      | Some values => if is_none values then result else <[key := values]> result
      end
  end.

Definition tags_to_dict {V} `{NoneTest V} (tags : list (Tag V)) : gmap string V :=
  fold_left tags_to_dict_step tags ∅.

(** [for x in xs: acc = body(acc, x)]: a loop whose body threads the state it
    updates and may raise. *)
Fixpoint for_each {A S} (xs : list A) (body : S -> A -> M S) (acc : S) : M S :=
  match xs with
  | [] => mret acc
  | x :: rest => acc' ← body acc x; for_each rest body acc'
  end.

(** [d[k] = v] on an insertion-ordered dict: an existing key keeps its place. *)
Fixpoint dict_set {V} (k : string) (v : V) (d : list (string * V)) : list (string * V) :=
  match d with
  | [] => [(k, v)]
  | (k', v') :: rest =>
      if String.eqb k' k then (k', v) :: rest else (k', v') :: dict_set k v rest
  end.

(** ** ec2_helpers.py *)

(** The members of the EC2 responses the code reads. *)
Record AttributeValue := mkAttributeValue { av_Value : option string }.

Record DhcpConfiguration := mkDhcpConfiguration {
  dc_Key : option string;
  dc_Values : list AttributeValue
}.

Record DhcpOptions := mkDhcpOptions { DhcpConfigurations : list DhcpConfiguration }.

Record Vpc := mkVpc { DhcpOptionsId : option string }.

Record Instance := mkInstance {
  PublicIpAddress : option string;
  PrivateIpAddress : option string;
  VpcId : option string;
  Tags : list (Tag string)
}.

Record Reservation := mkReservation { Instances : list Instance }.

Record Ec2Client := mkEc2Client {
  describe_instances : string -> list Reservation;
  describe_vpcs : string -> list Vpc;
  describe_dhcp_options : string -> list DhcpOptions
}.

(** The loop over [dhcp_configs]: [Some r] when the loop returns [r],
    [None] when it runs to its end. *)
Fixpoint domain_name_config (dhcp_configs : list DhcpConfiguration) : option (option string) :=
  match dhcp_configs with
  | [] => None
  | config :: rest =>
      if decide (dc_Key config = Some "domain-name") then
        match dc_Values config with
        | [value] => Some (av_Value value)
        | _ => domain_name_config rest
        end
      else domain_name_config rest
  end.

Definition get_dhcp_options_domain (ec2_client : Ec2Client) (vpc_id : string)
    : M (option string) :=
  emit (DescribeVpcs vpc_id);;
  let vpcs := describe_vpcs ec2_client vpc_id in
  match vpcs with
  | [vpc] =>
      match DhcpOptionsId vpc with
      | None =>
          log ERROR "vpc is missing DhcpOptionsId" [];;
          mret None
      | Some dhcp_options_id =>
          emit (DescribeDhcpOptions dhcp_options_id);;
          let dhcp_options := describe_dhcp_options ec2_client dhcp_options_id in
          match dhcp_options with
          | [options] =>
              match domain_name_config (DhcpConfigurations options) with
              | Some r => mret r
              | None =>
                  log INFO "DHCP Options Set has no domain-name value set" [];;
                  mret None
              end
          | _ =>
              log ERROR "describe_dhcp_options returned {} options instead of expected 1"
                  [ANat (length dhcp_options)];;
              mret None
          end
      end
  | _ =>
      log ERROR "describe_vpcs returned {} VPCs instead of expected 1" [ANat (length vpcs)];;
      mret None
  end.

Definition get_dns_domain (environ : gmap string string) (ec2_client : Ec2Client)
    (vpc_id region : string) (tags : gmap string string) : M string :=
  let dns_domain_tag_name_account_tag := get_setting environ dns_domain_tag_name_account_tag in
  log INFO "dns_domain_tag_name_account_tag: {}" [AStr dns_domain_tag_name_account_tag];;
  let default_dns_domain_tag_name := get_setting environ default_dns_domain_tag_name in
  log INFO "default_dns_domain_tag_name: {}" [AStr default_dns_domain_tag_name];;
  let dns_domain_tag :=
    default default_dns_domain_tag_name (tags !! dns_domain_tag_name_account_tag) in
  match tags !! dns_domain_tag with
  | Some dns_domain => mret dns_domain
  | None =>
      let dns_domain := region +:+ ".compute.internal" in
      dhcp_options_domain ← get_dhcp_options_domain ec2_client vpc_id;
      mret (default dns_domain dhcp_options_domain)
  end.

Definition get_hostname (environ : gmap string string) (tags : gmap string string)
    : M (option string) :=
  let hostname_tag_name_account_tag := get_setting environ hostname_tag_name_account_tag in
  log INFO "hostname_tag_name_account_tag: {}" [AStr hostname_tag_name_account_tag];;
  let default_hostname_tag_name := get_setting environ default_hostname_tag_name in
  log INFO "default_hostname_tag_name: {}" [AStr default_hostname_tag_name];;
  let hostname_tag :=
    default default_hostname_tag_name (tags !! hostname_tag_name_account_tag) in
  match tags !! hostname_tag with
  | Some hostname => mret (Some hostname)
  | None => mret (tags !! "Name")
  end.

(** ** route53_helpers.py *)

Record HostedZoneConfig := mkHostedZoneConfig { PrivateZone : option bool }.

(** A hosted zone as [list_hosted_zones] returns it; [Id] and [Name] are
    required members of the response. *)
Record HostedZone := mkHostedZone {
  Id : string;
  Name : string;
  Config : option HostedZoneConfig
}.

Record VPC := mkVPC { VPCId : option string }.

Record Route53Client := mkRoute53Client {
  list_hosted_zones : list HostedZone;
  get_hosted_zone : string -> list VPC;
  (* HostedZoneId, Action, Name, Type, TTL, Value; [false] when the call raises *)
  change_resource_record_sets : string -> string -> string -> string -> nat -> string -> bool
}.

(** [zone.get("Config", {}).get("PrivateZone", False)]. *)
Definition private_zone (zone : HostedZone) : bool :=
  match Config zone with
  | None => false
  | Some config => default false (PrivateZone config)
  end.

(** The [for zone in hosted_zones] loop of [get_public_zone_id]:
    [Some id] when it returns from the function. *)
Fixpoint public_zone_scan (check_zone : string) (hosted_zones : list HostedZone)
    : option string :=
  match hosted_zones with
  | [] => None
  | zone :: rest =>
      if negb (private_zone zone) && String.eqb (Name zone) check_zone
      then Some (Id zone)
      else public_zone_scan check_zone rest
  end.

(** The [while len(zone_parts) >= 2] loop of [get_public_zone_id]. *)
Fixpoint public_zone_walk (hosted_zones : list HostedZone) (zone_parts : list string)
    : M (option string) :=
  match zone_parts with
  | [] => mret None
  | _ :: rest =>
      if Nat.leb 2 (length zone_parts) then
        let check_zone := Py.join "." zone_parts +:+ "." in
        log INFO "searching for matching zone: {}" [AStr check_zone];;
        match public_zone_scan check_zone hosted_zones with
        | Some id => mret (Some id)
        | None => public_zone_walk hosted_zones rest
        end
      else mret None
  end.

Definition get_public_zone_id (route53 : Route53Client) (zone_name : option string)
    : M (option string) :=
  match zone_name with
  | None => mret None
  | Some zone_name =>
      if String.eqb zone_name "" then mret None
      else
        emit ListHostedZones;;
        let hosted_zones := list_hosted_zones route53 in
        let zone_parts := Py.split dot zone_name in
        public_zone_walk hosted_zones zone_parts
  end.

(** The [for vpc in zone_vpcs] loop: [true] when it returns from the function. *)
Fixpoint vpc_attached (vpc_id : string) (zone_vpcs : list VPC) : bool :=
  match zone_vpcs with
  | [] => false
  | vpc :: rest =>
      if decide (VPCId vpc = Some vpc_id) then true else vpc_attached vpc_id rest
  end.

(** The [for zone in hosted_zones] loop of [get_private_zone_id]. *)
Fixpoint private_zone_scan (route53_client : Route53Client) (vpc_id check_zone : string)
    (hosted_zones : list HostedZone) : M (option string) :=
  match hosted_zones with
  | [] => mret None
  | zone :: rest =>
      if private_zone zone && String.eqb (Name zone) check_zone then
        let zone_id := Id zone in
        log INFO "found matching zone ID: {} -- verifying VPC attachment" [AStr zone_id];;
        emit (GetHostedZone (Id zone));;
        let zone_vpcs := get_hosted_zone route53_client (Id zone) in
        if vpc_attached vpc_id zone_vpcs then
          log INFO "zone is attached to VPC" [];;
          mret (Some (Id zone))
        else
          log INFO "zone is not attached to VPC" [];;
          private_zone_scan route53_client vpc_id check_zone rest
      else private_zone_scan route53_client vpc_id check_zone rest
  end.

(** The [while len(zone_parts) >= 2] loop of [get_private_zone_id]. *)
Fixpoint private_zone_walk (route53_client : Route53Client) (vpc_id : string)
    (hosted_zones : list HostedZone) (zone_parts : list string) : M (option string) :=
  match zone_parts with
  | [] => mret None
  | _ :: rest =>
      if Nat.leb 2 (length zone_parts) then
        let check_zone := Py.join "." zone_parts +:+ "." in
        log INFO "searching for matching zone: {}" [AStr check_zone];;
        found ← private_zone_scan route53_client vpc_id check_zone hosted_zones;
        match found with
        | Some id => mret (Some id)
        | None => private_zone_walk route53_client vpc_id hosted_zones rest
        end
      else mret None
  end.

Definition get_private_zone_id (route53_client : Route53Client) (vpc_id region : string)
    (zone_name : option string) : M (option string) :=
  match zone_name with
  | None => mret None
  | Some zone_name =>
      if String.eqb zone_name "" then mret None
      else if String.eqb zone_name "{}.compute.internal" then
        log INFO "default private zone in use - skipping zone ID lookup" [];;
        mret None
      else
        emit ListHostedZones;;
        let hosted_zones := list_hosted_zones route53_client in
        let zone_parts := Py.split dot zone_name in
        private_zone_walk route53_client vpc_id hosted_zones zone_parts
  end.

Definition change_record (action : string) (route53_client : Route53Client)
    (zone_id record_type record_name record_data : string) : M unit :=
  emit (ChangeResourceRecordSets zone_id action (record_name +:+ ".") record_type 300
          record_data);;
  if change_resource_record_sets route53_client zone_id action (record_name +:+ ".")
       record_type 300 record_data
  then log INFO "{} successful for {} record: {} -> {}"
         [AStr action; AStr record_type; AStr record_name; AStr record_data]
  else log ERROR "{} failed for {} record '{}' -> '{}': {}"
         [AStr action; AStr record_type; AStr record_name; AStr record_data; AObj].

(** The value [get_aliases] stores for an alias. *)
Record AliasSettings := mkAliasSettings {
  hostname : string;
  dns_domain : string;
  fqdn : string;
  zone_id : option string
}.

(** The body of the loop of [get_aliases], for one alias. *)
Definition get_aliases_body (route53_client : Route53Client) (vpc_id region : string)
    (tags : gmap string string) (aliases_tag alias_type default_dns_domain : string)
    (settings : list (string * AliasSettings)) (alias : string)
    : M (list (string * AliasSettings)) :=
  log INFO "retrieving settings for '{}' alias" [AStr alias];;
  let tag_base := aliases_tag +:+ "/" +:+ alias_type +:+ "/" +:+ alias in
  hostname ←
    match tags !! (tag_base +:+ "/hostname") with
    | None =>
        log WARN "   no hostname found for {} alias '{}' - using alias as hostname"
          [AStr alias_type; AStr alias];;
        mret alias
    | Some hostname => mret hostname
    end;
  let parts := Py.split dot hostname in
  let '(hostname, dns_domain, fqdn) :=
    if Nat.eqb (length parts) 1 then
      let dns_domain := default_dns_domain in
      let fqdn := hostname +:+ "." +:+ dns_domain in
      (hostname, dns_domain, fqdn)
    else
      let hostname := default "" (head parts) in
      let dns_domain := Py.join "." (tail parts) in
      let fqdn := hostname in
      (hostname, dns_domain, fqdn) in
  log INFO "   hostname: {}" [AStr hostname];;
  log INFO "   dns_domain: {}" [AStr dns_domain];;
  log INFO "   fqdn: {}" [AStr fqdn];;
  zone_id ←
    match tags !! (tag_base +:+ "/zone_id") with
    | Some zone_id => mret (Some zone_id)
    | None =>
        if String.eqb alias_type "private" then
          get_private_zone_id route53_client vpc_id region (Some dns_domain)
        else if String.eqb alias_type "public" then
          get_public_zone_id route53_client (Some dns_domain)
        else mret None
    end;
  log INFO "   zone_id: {}" [AOpt zone_id];;
  mret (dict_set alias (mkAliasSettings hostname dns_domain fqdn zone_id) settings).

Definition get_aliases (route53_client : Route53Client) (vpc_id region : string)
    (tags : gmap string string) (aliases_tag alias_type default_dns_domain : string)
    : M (list (string * AliasSettings)) :=
  match tags !! (aliases_tag +:+ "/" +:+ alias_type) with
  | None =>
      (* the default [[]] is a list, which has no [split] *)
      raise (AttributeError "'list' object has no attribute 'split'")
  | Some aliases =>
      for_each (Py.strip <$> Py.split comma aliases)
        (get_aliases_body route53_client vpc_id region tags aliases_tag alias_type
           default_dns_domain)
        []
  end.

(** An entry of the [records] list. *)
Record DnsRecord := mkDnsRecord {
  r_zone_id : string;
  r_type : string;
  r_name : string;
  r_data : string
}.

(** What [register_host] returns: the [records] list, or the integer [0]. *)
Inductive retval :=
| RList (records : list DnsRecord)
| RInt (n : Z).

(** [xs[i]]. *)
Definition index (xs : list string) (i : nat) : M string :=
  match xs !! i with
  | Some x => mret x
  | None => raise (IndexError "list index out of range")
  end.

(** The alias loops of [register_host]: one iteration. *)
Definition register_alias (route53_client : Route53Client) (visibility ip : string)
    (records : list DnsRecord) (item : string * AliasSettings) : M (list DnsRecord) :=
  let '(alias, settings) := item in
  log INFO ("updating " +:+ visibility +:+ " alias: {}") [AStr alias];;
  match zone_id settings with
  | None =>
      log INFO "   no matching Route53 ZoneID was found - skipping A record registration" [];;
      mret records
  | Some zone =>
      let records := records ++ [mkDnsRecord zone "A" (fqdn settings) ip] in
      change_record "UPSERT" route53_client zone "A" (fqdn settings) ip;;
      mret records
  end.

Definition register_host (environ : gmap string string) (route53_client : Route53Client)
    (ec2_client : Ec2Client) (region instance_id : string) : M retval :=
  let records : list DnsRecord := [] in
  (* get instance metadata *)
  log INFO "--- instance metadata ---" [];;
  emit (DescribeInstances instance_id);;
  let reservations := describe_instances ec2_client instance_id in
  match reservations with
  | [reservation] =>
  match Instances reservation with
  | [instance] =>
  let public_ip := default "" (PublicIpAddress instance) in
  public_ip ←
    (* [public_ip is ""]: the empty string is one object, so identity is equality *)
    (if String.eqb public_ip "" then
       log INFO "host does not have a public IP" [];;
       mret None
     else
       log INFO "public_ip: {}" [AStr public_ip];;
       mret (Some public_ip));
  let private_ip := default "" (PrivateIpAddress instance) in
  if String.eqb private_ip "" then
    log FATAL "instance is missing private IP: {}" [AObj];;
    raise (Exception "instance is missing private IP: {}")
  else
  log INFO "private_ip: {}" [AStr private_ip];;
  let vpc_id := default "" (VpcId instance) in
  if String.eqb vpc_id "" then
    log FATAL "instance is missing VPC ID: {}" [AObj];;
    raise (Exception "instance is missing VPC ID: {}")
  else
  log INFO "vpc_id: {}" [AStr vpc_id];;
  (* get FQDN and PTR address *)
  let instance_tags := tags_to_dict (Tags instance) in
  hostname ← get_hostname environ instance_tags;
  match hostname with
  | None =>
      log WARN "no hostname is defined for the instance - skipping registration" [];;
      mret (RList records)
  | Some hostname =>
  let parts := Py.split dot hostname in
  '(hostname, dns_domain, fqdn) ←
    (if Nat.eqb (length parts) 1 then
       dns_domain ← get_dns_domain environ ec2_client vpc_id region instance_tags;
       let fqdn := hostname +:+ "." +:+ dns_domain in
       mret (hostname, dns_domain, fqdn)
     else
       let hostname := default "" (head parts) in
       let dns_domain := Py.join "." (tail parts) in
       let fqdn := hostname in
       mret (hostname, dns_domain, fqdn));
  log INFO "hostname: {}" [AStr hostname];;
  log INFO "dns_domain: {}" [AStr dns_domain];;
  log INFO "fqdn: {}" [AStr fqdn];;
  let octets := Py.split dot private_ip in
  o3 ← index octets 3; o2 ← index octets 2; o1 ← index octets 1; o0 ← index octets 0;
  let ptr_record := o3 +:+ "." +:+ o2 +:+ "." +:+ o1 +:+ "." +:+ o0 +:+ ".in-addr.arpa" in
  log INFO "ptr_record: {}" [AStr ptr_record];;
  o2 ← index octets 2; o1 ← index octets 1; o0 ← index octets 0;
  let arpa_zone := o2 +:+ "." +:+ o1 +:+ "." +:+ o0 +:+ ".in-addr.arpa" in
  log INFO "arpa_zone: {}" [AStr arpa_zone];;
  (* update A record for private zone *)
  log INFO "--- private record registration ---" [];;
  private_zone_id ← get_private_zone_id route53_client vpc_id region (Some dns_domain);
  records ←
    match private_zone_id with
    | None =>
        log INFO "no matching private zone for DNS domain attached to VPC - skipping A record registration" [];;
        mret records
    | Some private_zone_id =>
        log INFO "private_zone_id:{}" [AStr private_zone_id];;
        let records := records ++ [mkDnsRecord private_zone_id "A" fqdn private_ip] in
        change_record "UPSERT" route53_client private_zone_id "A" fqdn private_ip;;
        mret records
    end;
  (* configure aliases tags *)
  let aliases_tag_name_account_tag := get_setting environ aliases_tag_name_account_tag in
  log INFO "aliases_tag_name_account_tag: {}" [AStr aliases_tag_name_account_tag];;
  let default_aliases_tag_name := get_setting environ default_aliases_tag_name in
  log INFO "default_aliases_tag_name: {}" [AStr default_aliases_tag_name];;
  let aliases_tag :=
    default default_aliases_tag_name (instance_tags !! aliases_tag_name_account_tag) in
  (* update private aliases *)
  log INFO "--- private alias registration ---" [];;
  aliases ← get_aliases route53_client vpc_id region instance_tags aliases_tag "private"
              dns_domain;
  records ← for_each aliases (register_alias route53_client "private" private_ip) records;
  (* update PTR record for private ARPA zone *)
  log INFO "--- ARPA record registration ---" [];;
  arpa_zone_id ← get_private_zone_id route53_client vpc_id region (Some arpa_zone);
  records ←
    match arpa_zone_id with
    | None =>
        log INFO "   no matching private APRA zone attached to VPC - skipping PTR record registration" [];;
        mret records
    | Some arpa_zone_id =>
        log INFO "   arpa_zone_id: {}" [AStr arpa_zone_id];;
        let records := records ++ [mkDnsRecord arpa_zone_id "PTR" ptr_record (fqdn +:+ ".")] in
        change_record "UPSERT" route53_client arpa_zone_id "PTR" ptr_record (fqdn +:+ ".");;
        mret records
    end;
  (* if host has no public IP we are finished *)
  match public_ip with
  | None => mret (RInt 0)
  | Some public_ip =>
  (* update public aliases *)
  log INFO "--- public alias registration ---" [];;
  aliases ← get_aliases route53_client vpc_id region instance_tags aliases_tag "public"
              dns_domain;
  records ← for_each aliases (register_alias route53_client "public" public_ip) records;
  mret (RInt 0)
  end
  end
  | _ =>
      log FATAL "unexpected result when retrieving instance data: {}" [AObj];;
      raise (Exception "unexpected result when retrieving instance data: {}")
  end
  | _ =>
      log FATAL "unexpected result when retrieving instance data: {}" [AObj];;
      raise (Exception "unexpected result when retrieving instance data: {}")
  end.

(** [unregister_host]: the body is [pass]. *)
Definition unregister_host (instance_id : string) : M unit := mret tt.

(** ** helpers.py: [get_event_value] *)

(** [get_event_value(event, key)], given the result of [event.get(key, None)]. *)
Definition get_event_value {A} (value : option A) (key : string) : M A :=
  match value with
  | None =>
      let msg := "'" +:+ key +:+ "' is missing from the event" in
      log FATAL "'{}' is missing from the event" [AStr key];;
      raise (Exception msg)
  | Some value => mret value
  end.

(** ** lambda_function.py *)

(** The members of the triggering event the handler reads. *)
Record Detail := mkDetail {
  d_instance_id : option string;   (* "instance-id" *)
  d_state : option string          (* "state" *)
}.

Record Event := mkEvent {
  e_account : option string;
  e_region : option string;
  e_detail : option Detail
}.

Record Credentials := mkCredentials {
  AccessKeyId : string;
  SecretAccessKey : string;
  SessionToken : string
}.

Record OrganizationsClient := mkOrganizationsClient {
  (* the "Name" member at the top of the response, when there is one *)
  describe_account : string -> option string;
  list_tags_for_resource : string -> list (Tag string)
}.

Record StsClient := mkStsClient {
  (* RoleArn, RoleSessionName; the "Credentials" of the response *)
  assume_role : string -> string -> Credentials
}.

Record DynamoClient := mkDynamoClient {
  (* TableName, the InstanceId and the Records of the Item; the exception the
     call raises, if it raises one *)
  put_item : string -> string -> retval -> option exn
}.

(** What the handler does beyond the events of the helpers it calls. *)
Inductive handler_event :=
| Helper (e : event)
| DescribeAccount (account_id : string)
| ListTagsForResource (resource_id : string)
| AssumeRole (role_arn role_session_name : string)
| PutItem (table_name instance_id : string) (records : retval).

Definition HandlerM (A : Type) : Type := list handler_event * result A.

Definition h_trace {A} (m : HandlerM A) : list handler_event := fst m.
Definition h_outcome {A} (m : HandlerM A) : result A := snd m.

Definition h_ret {A} (a : A) : HandlerM A := ([], Ok a).
Definition h_emit (e : handler_event) : HandlerM unit := ([e], Ok tt).
Definition h_raise {A} (e : exn) : HandlerM A := ([], Raise e).
Definition h_bind {A B} (m : HandlerM A) (f : A -> HandlerM B) : HandlerM B :=
  match m with
  | (t, Ok a) => let '(t', r) := f a in (t ++ t', r)
  | (t, Raise e) => (t, Raise e)
  end.

#[global] Instance H_ret : MRet HandlerM := @h_ret.
#[global] Instance H_bind : MBind HandlerM := fun A B f m => h_bind m f.

(** A helper run inside the handler. *)
Definition lift {A} (m : M A) : HandlerM A := (Helper <$> trace m, outcome m).

(** [try: body finally: final]. *)
Definition try_finally {A} (body : HandlerM A) (final : HandlerM unit) : HandlerM A :=
  let '(t, r) := body in
  match final with
  | (t', Ok _) => (t ++ t', r)
  | (t', Raise e) => (t ++ t', Raise e)
  end.

Definition finished_message : string :=
  "=== Finished update-route53-host-records ===" +:+ String (ascii_of_nat 10) EmptyString.

(** [str(id)]: the handler formats the builtin function [id]. *)
Definition builtin_id : string := "<built-in function id>".

Definition lambda_handler (environ : gmap string string) (org_client : OrganizationsClient)
    (sts_client : StsClient) (dynamo_client : DynamoClient)
    (boto3_ec2_client : string -> Credentials -> Ec2Client)
    (route53_client : Route53Client) (event : Event) : HandlerM Z :=
  lift (log INFO "=== Starting update-route53-host-records ===" []);;
  lift (log INFO "sys.path: {}" [AObj]);;
  lift (log INFO "boto3 version: {}" [AObj]);;
  (* get settings from event *)
  account_id ← lift (get_event_value (e_account event) "account");
  region ← lift (get_event_value (e_region event) "region");
  details ← lift (get_event_value (e_detail event) "detail");
  instance_id ← lift (get_event_value (d_instance_id details) "instance-id");
  state ← lift (get_event_value (d_state details) "state");
  if negb (bool_decide (state ∈ ["running"; "shutting-down"; "stopping"])) then
    lift (log INFO "Nothing to do... state is '{}'" [AStr state]);;
    lift (log INFO finished_message []);;
    mret 0%Z
  else
  lift (log INFO "state: {}" [AStr state]);;
  (* configure settings *)
  let account_state_tag := get_setting environ account_state_tag in
  lift (log INFO "account_state_tag: {}" [AStr account_state_tag]);;
  let account_enabled_values :=
    Py.strip <$> Py.split ":"%char (get_setting environ account_enabled_values) in
  lift (log INFO "account_enabled_values: {}" [AObj]);;
  let iam_role_tag := get_setting environ iam_role_tag in
  lift (log INFO "iam_role_tag: {}" [AStr iam_role_tag]);;
  let default_iam_role := get_setting environ default_iam_role in
  lift (log INFO "default_iam_role: {}" [AStr default_iam_role]);;
  (* determine if the function is enabled on the account *)
  h_emit (DescribeAccount account_id);;
  let name := default account_id (describe_account org_client account_id) in
  h_emit (ListTagsForResource account_id);;
  let tags := tags_to_dict (list_tags_for_resource org_client account_id) in
  (* skip the account if it is not enabled *)
  if match tags !! account_state_tag with
     | None => true
     | Some value => negb (bool_decide (value ∈ account_enabled_values))
     end
  then
    lift (log INFO "skipping disabled account: {} ({})" [AStr name; AStr account_id]);;
    lift (log INFO finished_message []);;
    mret 0%Z
  else
  lift (log INFO "updating records for account: {} ({})" [AStr name; AStr account_id]);;
  (* configure the IAM role *)
  let iam_role := default default_iam_role (tags !! iam_role_tag) in
  let role_arn := "arn:aws:iam::" +:+ builtin_id +:+ ":role/" +:+ iam_role in
  lift (log INFO "   arn: {}" [AStr role_arn]);;
  (* assume the role *)
  h_emit (AssumeRole role_arn "awsaccount_session");;
  let role := assume_role sts_client role_arn "awsaccount_session" in
  lift (log INFO "assumed role: {}" [AStr role_arn]);;
  (* create the EC2 client *)
  let ec2_client := boto3_ec2_client region role in
  try_finally
    (if String.eqb state "running" then
       records ← lift (register_host environ route53_client ec2_client region instance_id);
       let table_name := get_setting environ dynamo_table_name in
       h_emit (PutItem table_name instance_id records);;
       match put_item dynamo_client table_name instance_id records with
       | None => mret tt
       | Some e => h_raise e
       end
     else
       lift (unregister_host instance_id))
    (lift (log INFO finished_message []));;
  mret 0%Z.

(** * Vocabulary of the properties *)

(** The candidate zone names of a name, in the order the specification gives
    them: labels [i:] joined, with a trailing dot, from the full name down to
    the last two labels. *)
Definition candidates_of (labels : list string) : list string :=
  (fun i => Py.join "." (drop i labels) +:+ ".") <$> seq 0 (length labels - 1).

(** The candidates of a name: those of its labels. *)
Definition zone_candidates (name : string) : list string :=
  candidates_of (Py.split dot name).

(** The first candidate, in order, that some eligible zone answers to, and
    the first such zone of the catalog. *)
Fixpoint first_match (eligible : HostedZone -> string -> bool)
    (hosted_zones : list HostedZone) (candidates : list string) : option string :=
  match candidates with
  | [] => None
  | candidate :: shorter =>
      match find (fun zone => eligible zone candidate) hosted_zones with
      | Some zone => Some (Id zone)
      | None => first_match eligible hosted_zones shorter
      end
  end.

(** A public zone answers to a candidate when it bears that name. *)
Definition public_hit (zone : HostedZone) (candidate : string) : bool :=
  negb (private_zone zone) && String.eqb (Name zone) candidate.

(** A private zone answers to a candidate when it bears that name and is
    attached to the network. *)
Definition private_hit (route53_client : Route53Client) (vpc_id : string)
    (zone : HostedZone) (candidate : string) : bool :=
  private_zone zone && String.eqb (Name zone) candidate
  && vpc_attached vpc_id (get_hosted_zone route53_client (Id zone)).

(** The same client, answering [list_hosted_zones] with another catalog. *)
Definition with_hosted_zones (route53_client : Route53Client) (zones : list HostedZone)
    : Route53Client :=
  mkRoute53Client zones (get_hosted_zone route53_client)
    (change_resource_record_sets route53_client).

(** The tag that holds the DNS domain: the instance tag named by the account
    tag setting, or the default tag name. *)
Definition dns_domain_tag (environ : gmap string string) (tags : gmap string string) : string :=
  default (get_setting environ default_dns_domain_tag_name)
    (tags !! get_setting environ dns_domain_tag_name_account_tag).

(** The tag that holds the hostname: the instance tag named by the account
    tag setting, or the default tag name. *)
Definition hostname_tag (environ : gmap string string) (tags : gmap string string) : string :=
  default (get_setting environ default_hostname_tag_name)
    (tags !! get_setting environ hostname_tag_name_account_tag).

(** The tag that holds the aliases of a visibility. *)
Definition aliases_tag_of (environ : gmap string string) (tags : gmap string string)
    (alias_type : string) : string :=
  default (get_setting environ default_aliases_tag_name)
    (tags !! get_setting environ aliases_tag_name_account_tag)
  +:+ "/" +:+ alias_type.

(** The ways the DHCP-derived domain fails to resolve: not one network, no
    option set id, not one option set, no "domain-name" setting with one value. *)
Inductive dhcp_mismatch (ec2_client : Ec2Client) (vpc_id : string) : Prop :=
| not_one_vpc :
    length (describe_vpcs ec2_client vpc_id) <> 1 -> dhcp_mismatch ec2_client vpc_id
| no_dhcp_options_id vpc :
    describe_vpcs ec2_client vpc_id = [vpc] -> DhcpOptionsId vpc = None ->
    dhcp_mismatch ec2_client vpc_id
| not_one_option_set vpc id :
    describe_vpcs ec2_client vpc_id = [vpc] -> DhcpOptionsId vpc = Some id ->
    length (describe_dhcp_options ec2_client id) <> 1 ->
    dhcp_mismatch ec2_client vpc_id
| not_one_value vpc id options :
    describe_vpcs ec2_client vpc_id = [vpc] -> DhcpOptionsId vpc = Some id ->
    describe_dhcp_options ec2_client id = [options] ->
    (forall config, config ∈ DhcpConfigurations options ->
                    dc_Key config = Some "domain-name" -> length (dc_Values config) <> 1) ->
    dhcp_mismatch ec2_client vpc_id.

(** Log entries, as opposed to calls of the clients. *)
Definition is_log (e : event) : bool :=
  match e with
  | Log _ _ _ => true
  | _ => false
  end.

(** The record changes a run submitted to Route 53, in order. *)
Definition submitted (t : list event) : list DnsRecord :=
  omap (fun e => match e with
                 | ChangeResourceRecordSets zone _ name type _ value =>
                     Some (mkDnsRecord zone type name value)
                 | _ => None
                 end) t.

(** The arguments of the log entries of a run that use a given template. *)
Definition logged (template : string) (t : list event) : list (list logarg) :=
  omap (fun e => match e with
                 | Log _ template' args =>
                     if String.eqb template' template then Some args else None
                 | _ => None
                 end) t.

(** The identity the code computes from a raw hostname: hostname, domain, fqdn. *)
Definition resolved_identity (raw default_dns_domain : string) : string * string * string :=
  let parts := Py.split dot raw in
  if Nat.eqb (length parts) 1 then (raw, default_dns_domain, raw +:+ "." +:+ default_dns_domain)
  else (default "" (head parts), Py.join "." (tail parts), default "" (head parts)).

(** The value [tags_to_dict] keeps of an entry: its selected value, unless
    that is [None]. *)
Definition kept_value {V} `{NoneTest V} (t : Tag V) : option V :=
  match tag_values t with
  | Some v => if is_none v then None else Some v
  | None => None
  end.

(** The calls of a run to EC2 and Route 53, in order, without the log entries. *)
Definition calls (t : list event) : list event :=
  List.filter (fun e => negb (is_log e)) t.

(** The same client, whose [change_resource_record_sets] answers otherwise. *)
Definition with_change_results (route53_client : Route53Client)
    (change : string -> string -> string -> string -> nat -> string -> bool) : Route53Client :=
  mkRoute53Client (list_hosted_zones route53_client) (get_hosted_zone route53_client) change.

(** The calls of the handler and of its helpers, without the log entries. *)
Definition handler_calls (t : list handler_event) : list handler_event :=
  List.filter (fun e => match e with
                        | Helper e => negb (is_log e)
                        | _ => true
                        end) t.

(** The last thing a handler run logged. *)
Definition last_logged (t : list handler_event) : option string :=
  last (omap (fun e => match e with
                       | Helper (Log _ template _) => Some template
                       | _ => None
                       end) t).

(** A string ends with two dots. *)
Definition ends_with_two_dots (s : string) : Prop := exists p, s = p +:+ "..".

(** The instance data [register_host] refuses: not one reservation, not one
    instance, no private IP, no VPC id. *)
Inductive unusable_instance (ec2_client : Ec2Client) (instance_id : string) : Prop :=
| not_one_reservation :
    length (describe_instances ec2_client instance_id) <> 1 ->
    unusable_instance ec2_client instance_id
| not_one_instance reservation :
    describe_instances ec2_client instance_id = [reservation] ->
    length (Instances reservation) <> 1 ->
    unusable_instance ec2_client instance_id
| no_private_ip reservation instance :
    describe_instances ec2_client instance_id = [reservation] ->
    Instances reservation = [instance] ->
    default "" (PrivateIpAddress instance) = "" ->
    unusable_instance ec2_client instance_id
| no_vpc_id reservation instance :
    describe_instances ec2_client instance_id = [reservation] ->
    Instances reservation = [instance] ->
    default "" (VpcId instance) = "" ->
    unusable_instance ec2_client instance_id.

(** Two runs agree when they end alike and make the same calls. *)
Definition agree {A} (m1 m2 : M A) : Prop :=
  outcome m1 = outcome m2 /\ calls (trace m1) = calls (trace m2).

(** The calls of a run to Route 53. *)
Definition route53_calls (t : list event) : list event :=
  List.filter (fun e => match e with
                        | ListHostedZones | GetHostedZone _
                        | ChangeResourceRecordSets _ _ _ _ _ _ => true
                        | _ => false
                        end) t.

(** The fields the handler requires of the event, when all are there:
    account, region, instance id and state. *)
Definition event_fields (event : Event) : option (string * string * string * string) :=
  match e_account event, e_region event, e_detail event with
  | Some account, Some region, Some details =>
      match d_instance_id details, d_state details with
      | Some instance_id, Some state => Some (account, region, instance_id, state)
      | _, _ => None
      end
  | _, _, _ => None
  end.

(** The first field the handler requires that the event lacks, in the order
    the handler reads them. *)
Definition first_missing_field (event : Event) : option string :=
  match e_account event, e_region event, e_detail event with
  | None, _, _ => Some "account"
  | Some _, None, _ => Some "region"
  | Some _, Some _, None => Some "detail"
  | Some _, Some _, Some details =>
      match d_instance_id details, d_state details with
      | None, _ => Some "instance-id"
      | Some _, None => Some "state"
      | Some _, Some _ => None
      end
  end.

(** The states the handler acts on. *)
Definition active_state (state : string) : Prop :=
  state ∈ ["running"; "shutting-down"; "stopping"].

(** The tags of an account, as the handler reads them. *)
Definition account_tags (org_client : OrganizationsClient) (account_id : string)
    : gmap string string :=
  tags_to_dict (list_tags_for_resource org_client account_id).

(** The account is enabled: its state tag holds one of the enabled values. *)
Definition account_enabled (environ : gmap string string) (org_client : OrganizationsClient)
    (account_id : string) : Prop :=
  exists value,
    account_tags org_client account_id !! get_setting environ account_state_tag = Some value
    /\ value ∈ Py.strip <$> Py.split ":"%char (get_setting environ account_enabled_values).

(** The role the handler assumes for an account: the account's role tag, or
    the default role. *)
Definition iam_role_of (environ : gmap string string) (org_client : OrganizationsClient)
    (account_id : string) : string :=
  default (get_setting environ default_iam_role)
    (account_tags org_client account_id !! get_setting environ iam_role_tag).

(** What a handler run stored with [put_item]. *)
Definition persisted (t : list handler_event) : list retval :=
  omap (fun e => match e with
                 | PutItem _ _ records => Some records
                 | _ => None
                 end) t.

(** The ARN of the role the handler assumes for an account. The account id
    is not part of it: the code formats the builtin [id]. *)
Definition role_arn_of (environ : gmap string string) (org_client : OrganizationsClient)
    (account_id : string) : string :=
  "arn:aws:iam::" +:+ builtin_id +:+ ":role/" +:+ iam_role_of environ org_client account_id.

(** A record change as the code submits them: an upsert of an A or PTR
    record, with a TTL of 300 seconds, under a name that ends in a dot. *)
Definition well_formed_change (e : event) : Prop :=
  match e with
  | ChangeResourceRecordSets _ action name type ttl _ =>
      action = "UPSERT" /\ (type = "A" \/ type = "PTR") /\ ttl = 300
      /\ exists record_name, name = record_name +:+ "."
  | _ => True
  end.

(** An event that is not a record change. *)
Definition no_change (e : event) : Prop :=
  match e with
  | ChangeResourceRecordSets _ _ _ _ _ _ => False
  | _ => True
  end.

(** * Sample inputs *)

(** An EC2 client that knows one instance, in a network whose DHCP options
    name the domain corp.internal. *)
Definition sample_ec2 (instance : Instance) : Ec2Client :=
  mkEc2Client
    (fun _ => [mkReservation [instance]])
    (fun _ => [mkVpc (Some "dopt-1")])
    (fun _ => [mkDhcpOptions
                 [mkDhcpConfiguration (Some "domain-name-servers")
                    [mkAttributeValue (Some "AmazonProvidedDNS")];
                  mkDhcpConfiguration (Some "domain-name")
                    [mkAttributeValue (Some "corp.internal")]]]).

(** An EC2 client that finds nothing. *)
Definition sample_empty_client : Ec2Client :=
  mkEc2Client (fun _ => []) (fun _ => []) (fun _ => []).

(** A catalog with a private zone and a reverse zone attached to vpc-1, and
    a public zone; every change succeeds. *)
Definition sample_route53 : Route53Client :=
  mkRoute53Client
    [mkHostedZone "Z1" "corp.internal." (Some (mkHostedZoneConfig (Some true)));
     mkHostedZone "Z2" "2.1.10.in-addr.arpa." (Some (mkHostedZoneConfig (Some true)));
     mkHostedZone "Z3" "example.com." (Some (mkHostedZoneConfig (Some false)))]
    (fun _ => [mkVPC (Some "vpc-1")])
    (fun _ _ _ _ _ _ => true).

(** Two private zones of one name; only the second is attached to vpc-1. *)
Definition shared_name_route53 : Route53Client :=
  mkRoute53Client
    [mkHostedZone "Z1" "corp.internal." (Some (mkHostedZoneConfig (Some true)));
     mkHostedZone "Z2" "corp.internal." (Some (mkHostedZoneConfig (Some true)))]
    (fun id => if String.eqb id "Z2" then [mkVPC (Some "vpc-1")] else [mkVPC (Some "vpc-9")])
    (fun _ _ _ _ _ _ => true).

(** A catalog with a private zone for the default domain of us-east-1. *)
Definition compute_internal_route53 : Route53Client :=
  mkRoute53Client
    [mkHostedZone "Z9" "us-east-1.compute.internal." (Some (mkHostedZoneConfig (Some true)))]
    (fun _ => [mkVPC (Some "vpc-1")])
    (fun _ _ _ _ _ _ => true).

(** The default tag of the private aliases. *)
Definition private_aliases_tag : string :=
  "fn.aws.joshhogle.com/update-route53-host-records/aliases/private".

(** An instance with neither a hostname tag nor a Name tag. *)
Definition untagged_instance : Instance :=
  mkInstance None (Some "10.1.2.3") (Some "vpc-1") [mkTag (Some "Role") (Some "db") None].

(** The instance of the end-to-end scenario: tags [{Name: "web1"}] only. *)
Definition web1_instance : Instance :=
  mkInstance None (Some "10.1.2.3") (Some "vpc-1") [mkTag (Some "Name") (Some "web1") None].

(** An instance named by an FQDN, with one private alias that is an FQDN too. *)
Definition fqdn_instance : Instance :=
  mkInstance None (Some "10.1.2.3") (Some "vpc-1")
    [mkTag (Some "Name") (Some "web1.corp.internal") None;
     mkTag (Some private_aliases_tag) (Some "api.corp.internal") None].

(** An instance with a bare name and one private alias. *)
Definition aliased_instance : Instance :=
  mkInstance None (Some "10.1.2.3") (Some "vpc-1")
    [mkTag (Some "Name") (Some "web1") None;
     mkTag (Some private_aliases_tag) (Some "db") None].

(** An organization whose accounts are enabled, with no role tag. *)
Definition sample_org : OrganizationsClient :=
  mkOrganizationsClient (fun _ => None)
    (fun _ => [mkTag (Some "fn.aws.joshhogle.com/update-route53-host-records/account/state")
                 (Some "enabled") None]).

(** An organization whose accounts carry no tag. *)
Definition untagged_org : OrganizationsClient :=
  mkOrganizationsClient (fun _ => None) (fun _ => []).

(** A table client that checks the type of Records, as the real one does: a
    value that is not a list is refused. *)
Definition sample_dynamo : DynamoClient :=
  mkDynamoClient (fun _ _ records =>
                    match records with
                    | RList _ => None
                    | RInt _ => Some (Exception "Parameter validation failed")
                    end).

Definition sample_sts : StsClient :=
  mkStsClient (fun _ _ => mkCredentials "AKIA" "secret" "token").

(** The event of an instance state change. *)
Definition state_change (state : string) : Event :=
  mkEvent (Some "111122223333") (Some "us-east-1")
    (Some (mkDetail (Some "i-1") (Some state))).

(** * Properties *)

(** ** The effect monad *)

Ltac unfold_M := unfold mbind, M_bind, mret, M_ret, log, emit, raise, ret in *.

Lemma trace_bind_prefix {A B} (m : M A) (f : A -> M B) :
  trace m `prefix_of` trace (bind m f).
Proof.
  destruct m as [t [a|e]]; unfold bind, trace; simpl.
  - destruct (f a) as [t' r]. by apply prefix_app_r.
  - done.
Qed.

Lemma outcome_bind_inv {A B} (m : M A) (f : A -> M B) b :
  outcome (bind m f) = Ok b -> exists a, outcome m = Ok a /\ outcome (f a) = Ok b.
Proof.
  destruct m as [t [a|e]]; unfold bind, outcome; simpl.
  - destruct (f a) as [t' r] eqn:E. simpl. intros ->. exists a. by rewrite E.
  - done.
Qed.

(** ** Python strings *)

Lemma split_nonempty c s : Py.split c s <> [].
Proof. destruct s as [|a s]; simpl; [done|]. destruct (Ascii.eqb a c); [done|]. by destruct (Py.split c s). Qed.

Lemma split_no_sep c s : Py.contains c s = false -> Py.split c s = [s].
Proof.
  induction s as [|a s IH]; simpl; [done|].
  intros [Ha Hs]%orb_false_iff. rewrite Ha, (IH Hs). done.
Qed.

Lemma split_sep c h d :
  Py.contains c h = false -> Py.split c (h +:+ String c d) = h :: Py.split c d.
Proof.
  induction h as [|a h IH]; simpl.
  - intros _. by rewrite Ascii.eqb_refl.
  - intros [Ha Hh]%orb_false_iff. rewrite Ha, (IH Hh). done.
Qed.

Lemma split_dot h d :
  Py.contains dot h = false -> Py.split dot (h +:+ "." +:+ d) = h :: Py.split dot d.
Proof. apply split_sep. Qed.

Lemma join_split c s : Py.join (String c EmptyString) (Py.split c s) = s.
Proof.
  induction s as [|a s IH]; simpl; [done|].
  destruct (Ascii.eqb a c) eqn:E.
  - apply Ascii.eqb_eq in E as ->.
    pose proof (split_nonempty c s).
    destruct (Py.split c s) as [|p ps] eqn:Es; [done|].
    simpl in *. by rewrite IH.
  - pose proof (split_nonempty c s).
    destruct (Py.split c s) as [|p ps] eqn:Es; [done|].
    destruct ps; simpl in *; by rewrite <- IH.
Qed.

(** ** Tag model: [tags_to_dict] *)

Section TagsToDict.
Context {V : Type} `{NoneTest V}.
Implicit Types (tags : list (Tag V)) (t : Tag V) (result : gmap string V).

Lemma tags_to_dict_snoc tags t :
  tags_to_dict (tags ++ [t]) = tags_to_dict_step (tags_to_dict tags) t.
Proof. unfold tags_to_dict. by rewrite fold_left_app. Qed.

Lemma tags_to_dict_step_lookup result t k v :
  tags_to_dict_step result t !! k = Some v ->
  result !! k = Some v \/ (Key t = Some k /\ tag_values t = Some v /\ is_none v = false).
Proof.
  unfold tags_to_dict_step.
  destruct (Key t) as [key|]; [|by left].
  destruct (tag_values t) as [values|]; [|by left].
  destruct (is_none values) eqn:En; [by left|].
  destruct (decide (key = k)) as [->|Hne].
  - rewrite lookup_insert_eq. intros [= ->]. by right.
  - rewrite lookup_insert_ne by done. by left.
Qed.

(** A stored value is the selected value of an entry with that key. *)
Lemma tags_to_dict_lookup tags k v :
  tags_to_dict tags !! k = Some v ->
  exists t, t ∈ tags /\ Key t = Some k /\ tag_values t = Some v /\ is_none v = false.
Proof.
  induction tags as [|t tags IH] using rev_ind.
  - unfold tags_to_dict. simpl. by rewrite lookup_empty.
  - rewrite tags_to_dict_snoc. intros [Hin|Ht]%tags_to_dict_step_lookup.
    + destruct (IH Hin) as (t' & Hel & Ht'). exists t'. split; [|done].
      apply elem_of_app. by left.
    + exists t. split; [|done]. apply elem_of_app. right. by apply list_elem_of_singleton.
Qed.

(** An entry with no key or no value leaves the loop's state unchanged. *)
Lemma tags_to_dict_drop pre t post :
  Key t = None \/ tag_values t = None ->
  tags_to_dict (pre ++ t :: post) = tags_to_dict (pre ++ post).
Proof.
  intros Ht. unfold tags_to_dict. rewrite !fold_left_app. simpl. f_equal.
  generalize (fold_left tags_to_dict_step pre ∅). intros result.
  unfold tags_to_dict_step.
  destruct Ht as [-> | ->]; [done|]. by destruct (Key t).
Qed.
End TagsToDict.

(** C8, as the code has it: [tags_to_dict] maps a tag key to the value the
    entry carries under "Values" when that key is present and under "Value"
    otherwise. [{Key:"Name", Value:"web1"}] gives [{"Name": "web1"}]; an entry
    missing "Key", or both "Value" and "Values", is dropped; every stored
    value is the selected value of an input entry with that key, so the
    stored values are strings when the selected values of the input are. *)
Theorem tags_to_dict_values :
  tags_to_dict [mkTag (Some "Name") (Some (PStr "web1")) None] = {["Name" := PStr "web1"]}
  /\ (forall (pre : list (Tag pyval)) t post,
        Key t = None \/ tag_values t = None ->
        tags_to_dict (pre ++ t :: post) = tags_to_dict (pre ++ post))
  /\ (forall (tags : list (Tag pyval)) k v,
        tags_to_dict tags !! k = Some v ->
        exists t, t ∈ tags /\ Key t = Some k /\ tag_values t = Some v /\ v <> PNone)
  /\ (forall (tags : list (Tag pyval)),
        (forall t v, t ∈ tags -> tag_values t = Some v -> exists s, v = PStr s) ->
        forall k v, tags_to_dict tags !! k = Some v -> exists s, v = PStr s).
Proof.
  split; [by vm_compute|]. split; [apply @tags_to_dict_drop|]. split.
  - intros tags k v (t & Hel & Hk & Hv & Hn)%tags_to_dict_lookup.
    exists t. repeat split; try done. by intros ->.
  - intros tags Hstr k v (t & Hel & Hk & Hv & Hn)%tags_to_dict_lookup. eauto.
Qed.

Lemma tags_to_dict_values_witness :
  tags_to_dict [mkTag (Some "a") (Some (PStr "1")) None; mkTag None (Some (PStr "2")) None;
                mkTag (Some "b") None None]
  = tags_to_dict [mkTag (Some "a") (Some (PStr "1")) None; mkTag (Some "b") None None]
  /\ exists s, tags_to_dict [mkTag (Some "a") (Some (PStr "1")) None] !! "a" = Some (PStr s).
Proof.
  destruct tags_to_dict_values as (_ & Hdrop & _ & Hstr).
  split.
  - apply (Hdrop [mkTag (Some "a") (Some (PStr "1")) None] (mkTag None (Some (PStr "2")) None)
             [mkTag (Some "b") None None]).
    left. reflexivity.
  - exists "1". vm_compute. reflexivity.
Defined.

(** C8, as the claim states it, fails: a list under "Values" is stored as it is. *)
Lemma tags_to_dict_stores_list :
  ~ (forall (tags : list (Tag pyval)) k v,
       tags_to_dict tags !! k = Some v -> exists s, v = PStr s).
Proof.
  intros Hall.
  destruct (Hall [mkTag (Some "k") None (Some (PList ["a"; "b"]))] "k" (PList ["a"; "b"]))
    as [s Hs]; [by vm_compute | discriminate].
Qed.

(** ** Zone locator *)

Lemma candidates_of_cons p q rest :
  candidates_of (p :: q :: rest)
  = (Py.join "." (p :: q :: rest) +:+ ".") :: candidates_of (q :: rest).
Proof.
  unfold candidates_of. cbn [length Nat.sub]. rewrite Nat.sub_0_r.
  cbn [seq fmap list_fmap drop]. f_equal.
  rewrite <- fmap_S_seq, <- list_fmap_compose. done.
Qed.

Lemma first_match_Some eligible zones candidates id :
  first_match eligible zones candidates = Some id ->
  exists zone candidate,
    zone ∈ zones /\ candidate ∈ candidates /\ eligible zone candidate = true /\ Id zone = id.
Proof.
  induction candidates as [|c cs IH]; simpl; [done|].
  destruct (find _ zones) as [zone|] eqn:Ef.
  - intros [= <-]. apply find_some in Ef as [Hin Hel].
    exists zone, c. repeat split; try done.
    + by apply list_elem_of_In.
    + by left.
  - intros (zone & c' & ? & ? & ? & ?)%IH. exists zone, c'. repeat split; try done. by right.
Qed.

Lemma first_match_None eligible zones candidates :
  (forall zone candidate,
     zone ∈ zones -> candidate ∈ candidates -> eligible zone candidate = false) ->
  first_match eligible zones candidates = None.
Proof.
  induction candidates as [|c cs IH]; simpl; [done|]. intros Hno.
  destruct (find _ zones) as [zone|] eqn:Ef.
  - apply find_some in Ef as [Hin Hel]. rewrite Hno in Hel; [done| |by left].
    by apply list_elem_of_In.
  - apply IH. intros zone c' ? ?. apply Hno; [done|by right].
Qed.

Lemma find_skip {A} (P : A -> bool) pre x post :
  P x = false -> find P (pre ++ x :: post) = find P (pre ++ post).
Proof.
  intros Hx. induction pre as [|y pre IH]; simpl.
  - by rewrite Hx.
  - by rewrite IH.
Qed.

Lemma first_match_skip eligible pre zone post candidates :
  (forall candidate, eligible zone candidate = false) ->
  first_match eligible (pre ++ zone :: post) candidates
  = first_match eligible (pre ++ post) candidates.
Proof.
  intros Hz. induction candidates as [|c cs IH]; simpl; [done|].
  rewrite find_skip by apply Hz. by rewrite IH.
Qed.

Lemma public_zone_scan_find check_zone hosted_zones :
  public_zone_scan check_zone hosted_zones
  = Id <$> find (fun zone => public_hit zone check_zone) hosted_zones.
Proof.
  induction hosted_zones as [|zone rest IH]; simpl; [done|].
  unfold public_hit at 1. by destruct (_ && _).
Qed.

Lemma public_zone_walk_cons hosted_zones p q rest :
  public_zone_walk hosted_zones (p :: q :: rest)
  = (log INFO "searching for matching zone: {}" [AStr (Py.join "." (p :: q :: rest) +:+ ".")];;
     match public_zone_scan (Py.join "." (p :: q :: rest) +:+ ".") hosted_zones with
     | Some id => mret (Some id)
     | None => public_zone_walk hosted_zones (q :: rest)
     end).
Proof. done. Qed.

Lemma public_zone_walk_outcome hosted_zones zone_parts :
  outcome (public_zone_walk hosted_zones zone_parts)
  = Ok (first_match public_hit hosted_zones (candidates_of zone_parts)).
Proof.
  induction zone_parts as [|p rest IH]; [done|].
  destruct rest as [|q rest]; [done|].
  rewrite candidates_of_cons, public_zone_walk_cons. cbn [first_match].
  rewrite public_zone_scan_find.
  destruct (find _ hosted_zones) as [zone|]; [done|].
  cbn [fmap option_fmap option_map]. rewrite <- IH.
  unfold_M. unfold bind. by destruct (public_zone_walk hosted_zones (q :: rest)).
Qed.

Lemma get_public_zone_id_outcome route53 zone_name :
  outcome (get_public_zone_id route53 (Some zone_name))
  = Ok (first_match public_hit (list_hosted_zones route53) (zone_candidates zone_name)).
Proof.
  unfold get_public_zone_id. destruct (String.eqb zone_name "") eqn:E.
  - apply String.eqb_eq in E as ->. done.
  - unfold_M. cbn [bind]. unfold zone_candidates.
    rewrite <- public_zone_walk_outcome.
    by destruct (public_zone_walk _ _).
Qed.

(** C5: the zone lookup tries the candidates of the name longest first (the
    labels [i:] joined, with a trailing dot, down to two labels) and returns
    the first zone answering to the first candidate that has one; with zones
    "b.c." (id1) and "a.b.c." (id2) the name "x.a.b.c" finds id2; when no
    candidate has a zone the lookup returns None. *)
Theorem zone_lookup_longest_suffix_first :
  (forall route53 zone_name,
     outcome (get_public_zone_id route53 (Some zone_name))
     = Ok (first_match public_hit (list_hosted_zones route53) (zone_candidates zone_name)))
  /\ zone_candidates "x.a.b.c" = ["x.a.b.c."; "a.b.c."; "b.c."]
  /\ (forall config1 config2 vpcs change,
        private_zone (mkHostedZone "id1" "b.c." config1) = false ->
        private_zone (mkHostedZone "id2" "a.b.c." config2) = false ->
        outcome (get_public_zone_id
                   (mkRoute53Client [mkHostedZone "id1" "b.c." config1;
                                     mkHostedZone "id2" "a.b.c." config2] vpcs change)
                   (Some "x.a.b.c"))
        = Ok (Some "id2"))
  /\ (forall route53 zone_name,
        (forall zone candidate,
           zone ∈ list_hosted_zones route53 -> candidate ∈ zone_candidates zone_name ->
           private_zone zone = false -> Name zone <> candidate) ->
        outcome (get_public_zone_id route53 (Some zone_name)) = Ok None).
Proof.
  split; [apply get_public_zone_id_outcome|]. split; [done|]. split.
  - intros config1 config2 vpcs change H1 H2. rewrite get_public_zone_id_outcome.
    cbn [list_hosted_zones]. unfold public_hit. vm_compute zone_candidates.
    cbn [first_match find]. rewrite H1, H2. done.
  - intros route53 zone_name Hno. rewrite get_public_zone_id_outcome.
    rewrite first_match_None; [done|].
    intros zone candidate Hz Hc. unfold public_hit.
    destruct (private_zone zone) eqn:Ep; [done|]. simpl.
    apply String.eqb_neq. by apply Hno.
Qed.

Lemma zone_lookup_longest_suffix_first_witness :
  outcome (get_public_zone_id
             (mkRoute53Client [mkHostedZone "id1" "b.c." None;
                               mkHostedZone "id2" "a.b.c." (Some (mkHostedZoneConfig None))]
                (fun _ => []) (fun _ _ _ _ _ _ => true))
             (Some "x.a.b.c"))
  = Ok (Some "id2")
  /\ outcome (get_public_zone_id
                (mkRoute53Client [mkHostedZone "id1" "b.c." None] (fun _ => [])
                   (fun _ _ _ _ _ _ => true))
                (Some "x.y.z"))
     = Ok None.
Proof.
  destruct zone_lookup_longest_suffix_first as (_ & _ & Hex & Hnone). split.
  - apply Hex; reflexivity.
  - apply Hnone. intros zone candidate Hz Hc _.
    apply list_elem_of_singleton in Hz as ->.
    vm_compute in Hc. apply list_elem_of_In in Hc. simpl in Hc.
    intros Heq. simpl in Heq. subst candidate.
    destruct Hc as [Hc|[Hc|Hc]]; [discriminate Hc|discriminate Hc|exact Hc].
Defined.

Lemma vpc_attached_elem vpc_id zone_vpcs :
  vpc_attached vpc_id zone_vpcs = true <-> Some vpc_id ∈ VPCId <$> zone_vpcs.
Proof.
  induction zone_vpcs as [|vpc rest IH]; simpl.
  - split; [done|]. by intros ?%elem_of_nil.
  - destruct (decide (VPCId vpc = Some vpc_id)) as [->|Hne].
    + split; [|done]. intros _. by left.
    + rewrite IH. split; [by right|]. by intros [?|?]%elem_of_cons.
Qed.

Lemma private_zone_scan_outcome route53_client vpc_id check_zone hosted_zones :
  outcome (private_zone_scan route53_client vpc_id check_zone hosted_zones)
  = Ok (Id <$> find (fun zone => private_hit route53_client vpc_id zone check_zone)
                 hosted_zones).
Proof.
  induction hosted_zones as [|zone rest IH]; [done|].
  cbn [private_zone_scan find]. unfold private_hit at 1.
  destruct (private_zone zone && String.eqb (Name zone) check_zone); [|done].
  cbn [andb].
  destruct (vpc_attached vpc_id (get_hosted_zone route53_client (Id zone))); [done|].
  rewrite <- IH. unfold_M. unfold bind.
  by destruct (private_zone_scan route53_client vpc_id check_zone rest).
Qed.

Lemma private_zone_walk_cons route53_client vpc_id hosted_zones p q rest :
  private_zone_walk route53_client vpc_id hosted_zones (p :: q :: rest)
  = (log INFO "searching for matching zone: {}" [AStr (Py.join "." (p :: q :: rest) +:+ ".")];;
     found ← private_zone_scan route53_client vpc_id (Py.join "." (p :: q :: rest) +:+ ".")
               hosted_zones;
     match found with
     | Some id => mret (Some id)
     | None => private_zone_walk route53_client vpc_id hosted_zones (q :: rest)
     end).
Proof. done. Qed.

Lemma private_zone_walk_outcome route53_client vpc_id hosted_zones zone_parts :
  outcome (private_zone_walk route53_client vpc_id hosted_zones zone_parts)
  = Ok (first_match (private_hit route53_client vpc_id) hosted_zones
          (candidates_of zone_parts)).
Proof.
  induction zone_parts as [|p rest IH]; [done|].
  destruct rest as [|q rest]; [done|].
  rewrite candidates_of_cons, private_zone_walk_cons. cbn [first_match].
  pose proof (private_zone_scan_outcome route53_client vpc_id
                (Py.join "." (p :: q :: rest) +:+ ".") hosted_zones) as Hscan.
  destruct (private_zone_scan _ _ _ hosted_zones) as [t r].
  unfold outcome in Hscan. simpl in Hscan. subst r.
  destruct (find _ hosted_zones) as [zone|]; [done|].
  cbn [fmap option_fmap option_map]. rewrite <- IH.
  unfold_M. unfold bind.
  by destruct (private_zone_walk route53_client vpc_id hosted_zones (q :: rest)).
Qed.

(** The value of the private lookup: nothing for the empty name and for the
    literal "{}.compute.internal", the first match of the candidates otherwise. *)
Lemma get_private_zone_id_outcome route53_client vpc_id region zone_name :
  outcome (get_private_zone_id route53_client vpc_id region (Some zone_name))
  = Ok (if String.eqb zone_name "{}.compute.internal" then None
        else first_match (private_hit route53_client vpc_id)
               (list_hosted_zones route53_client) (zone_candidates zone_name)).
Proof.
  unfold get_private_zone_id. destruct (String.eqb zone_name "") eqn:E.
  - apply String.eqb_eq in E as ->. done.
  - destruct (String.eqb zone_name "{}.compute.internal"); [done|].
    unfold zone_candidates. rewrite <- private_zone_walk_outcome.
    unfold_M. unfold bind. by destruct (private_zone_walk _ _ _ _).
Qed.

Lemma first_match_None_inv eligible zones candidates zone candidate :
  first_match eligible zones candidates = None ->
  zone ∈ zones -> candidate ∈ candidates -> eligible zone candidate = false.
Proof.
  induction candidates as [|c cs IH]; simpl; [by intros _ _ ?%elem_of_nil|].
  destruct (find _ zones) as [z|] eqn:Ef; [done|].
  intros Hnone Hz [->|Hc]%elem_of_cons; [|by apply IH].
  apply list_elem_of_In in Hz. by apply (find_none _ _ Ef zone).
Qed.

(** C6: the private lookup goes through the candidates of the name, longest
    first, and through the catalog for each: but for the literal name
    "{}.compute.internal" it returns the first zone that is private, bears
    the name of the candidate and is attached to the given network id, for
    the first candidate that has such a zone. So a zone id is returned only
    for a private zone named by a candidate whose attached networks include
    the network id; a zone that is not attached is never returned, and the
    lookup goes on as if it were not in the catalog (the remaining zones of
    that depth, then the shorter candidates); and whenever an attached
    private zone bears the name of a candidate, the lookup returns a zone. *)
Theorem private_zone_requires_attachment :
  (forall route53_client vpc_id region zone_name,
     outcome (get_private_zone_id route53_client vpc_id region (Some zone_name))
     = Ok (if String.eqb zone_name "{}.compute.internal" then None
           else first_match (private_hit route53_client vpc_id)
                  (list_hosted_zones route53_client) (zone_candidates zone_name)))
  /\ (forall route53_client vpc_id region zone_name id,
        outcome (get_private_zone_id route53_client vpc_id region (Some zone_name))
        = Ok (Some id) ->
        exists zone,
          zone ∈ list_hosted_zones route53_client /\ Id zone = id
          /\ private_zone zone = true /\ Name zone ∈ zone_candidates zone_name
          /\ Some vpc_id ∈ VPCId <$> get_hosted_zone route53_client id)
  /\ (forall route53_client vpc_id region zone_name pre zone post,
        list_hosted_zones route53_client = pre ++ zone :: post ->
        Some vpc_id ∉ VPCId <$> get_hosted_zone route53_client (Id zone) ->
        outcome (get_private_zone_id route53_client vpc_id region (Some zone_name))
        = outcome (get_private_zone_id (with_hosted_zones route53_client (pre ++ post))
                     vpc_id region (Some zone_name)))
  /\ (forall route53_client vpc_id region zone_name zone,
        zone_name <> "{}.compute.internal" ->
        zone ∈ list_hosted_zones route53_client ->
        private_zone zone = true ->
        Name zone ∈ zone_candidates zone_name ->
        Some vpc_id ∈ VPCId <$> get_hosted_zone route53_client (Id zone) ->
        exists id,
          outcome (get_private_zone_id route53_client vpc_id region (Some zone_name))
          = Ok (Some id)).
Proof.
  split; [intros; apply get_private_zone_id_outcome|]. split; [|split].
  - intros route53_client vpc_id region zone_name id.
    rewrite get_private_zone_id_outcome.
    destruct (String.eqb zone_name "{}.compute.internal"); [done|].
    intros [= (zone & candidate & Hz & Hc & Hhit & Hid)%first_match_Some].
    unfold private_hit in Hhit.
    apply andb_true_iff in Hhit as [[Hp Hn]%andb_true_iff Ha].
    apply String.eqb_eq in Hn. apply vpc_attached_elem in Ha.
    exists zone. subst. done.
  - intros route53_client vpc_id region zone_name pre zone post Hzones Hna.
    rewrite !get_private_zone_id_outcome.
    destruct (String.eqb zone_name "{}.compute.internal"); [done|].
    f_equal. cbn [with_hosted_zones list_hosted_zones]. rewrite Hzones.
    rewrite first_match_skip; [done|].
    intros candidate. unfold private_hit.
    destruct (vpc_attached vpc_id _) eqn:Ea; [|by rewrite andb_false_r].
    by apply vpc_attached_elem in Ea.
  - intros route53_client vpc_id region zone_name zone Hname%String.eqb_neq Hz Hp Hc Ha.
    rewrite get_private_zone_id_outcome, Hname.
    destruct (first_match _ _ _) as [id|] eqn:Hfm; [by exists id|].
    pose proof (first_match_None_inv _ _ _ zone (Name zone) Hfm Hz Hc) as Hhit.
    unfold private_hit in Hhit. apply vpc_attached_elem in Ha.
    by rewrite Hp, String.eqb_refl, Ha in Hhit.
Qed.

Lemma private_zone_requires_attachment_witness :
  outcome (get_private_zone_id shared_name_route53 "vpc-1" "us-east-1"
             (Some "web1.corp.internal"))
  = Ok (Some "Z2")
  /\ (exists zone, zone ∈ list_hosted_zones shared_name_route53 /\ Id zone = "Z2"
                   /\ private_zone zone = true
                   /\ Name zone ∈ zone_candidates "web1.corp.internal"
                   /\ Some "vpc-1" ∈ VPCId <$> get_hosted_zone shared_name_route53 "Z2")
  /\ outcome (get_private_zone_id shared_name_route53 "vpc-1" "us-east-1"
                (Some "web1.corp.internal"))
     = outcome (get_private_zone_id
                  (with_hosted_zones shared_name_route53
                     [mkHostedZone "Z2" "corp.internal."
                        (Some (mkHostedZoneConfig (Some true)))])
                  "vpc-1" "us-east-1" (Some "web1.corp.internal"))
  /\ exists id,
       outcome (get_private_zone_id shared_name_route53 "vpc-1" "us-east-1"
                  (Some "web1.corp.internal")) = Ok (Some id).
Proof.
  destruct private_zone_requires_attachment as (Hfirst & Honly & Hskip & Hfound).
  split; [|split; [|split]].
  - rewrite Hfirst. vm_compute. reflexivity.
  - apply (Honly shared_name_route53 "vpc-1" "us-east-1" "web1.corp.internal" "Z2").
    reflexivity.
  - apply (Hskip shared_name_route53 "vpc-1" "us-east-1" "web1.corp.internal" []
             (mkHostedZone "Z1" "corp.internal." (Some (mkHostedZoneConfig (Some true))))
             [mkHostedZone "Z2" "corp.internal." (Some (mkHostedZoneConfig (Some true)))]).
    + reflexivity.
    + vm_compute. intros Hin. apply list_elem_of_In in Hin. simpl in Hin.
      destruct Hin as [Hin|Hin]; [discriminate Hin|exact Hin].
  - apply (Hfound shared_name_route53 "vpc-1" "us-east-1" "web1.corp.internal"
             (mkHostedZone "Z2" "corp.internal." (Some (mkHostedZoneConfig (Some true))))).
    + discriminate.
    + right. left.
    + reflexivity.
    + vm_compute. right. left.
    + vm_compute. left.
Defined.

(** ** Domain resolver *)

Lemma domain_name_config_found pre config post d :
  (forall c, c ∈ pre -> dc_Key c <> Some "domain-name") ->
  dc_Key config = Some "domain-name" ->
  dc_Values config = [mkAttributeValue (Some d)] ->
  domain_name_config (pre ++ config :: post) = Some (Some d).
Proof.
  intros Hpre Hk Hv. induction pre as [|c pre IH]; simpl.
  - rewrite Hv. by destruct (decide _).
  - destruct (decide (dc_Key c = Some "domain-name")) as [Hc|_].
    + exfalso. eapply Hpre; [by left|done].
    + apply IH. intros c' ?. apply Hpre. by right.
Qed.

Lemma domain_name_config_none dhcp_configs :
  (forall config, config ∈ dhcp_configs ->
                  dc_Key config = Some "domain-name" -> length (dc_Values config) <> 1) ->
  domain_name_config dhcp_configs = None.
Proof.
  induction dhcp_configs as [|c rest IH]; simpl; [done|]. intros Hno.
  assert (domain_name_config rest = None) as Hrest.
  { apply IH. intros c' ?. apply Hno. by right. }
  destruct (decide (dc_Key c = Some "domain-name")) as [Hc|_]; [|done].
  pose proof (Hno c ltac:(by left) Hc) as Hlen.
  destruct (dc_Values c) as [|v [|v' vs]]; try done.
Qed.

Lemma get_dhcp_options_domain_returns ec2_client vpc_id :
  exists r, outcome (get_dhcp_options_domain ec2_client vpc_id) = Ok r.
Proof.
  unfold get_dhcp_options_domain.
  destruct (describe_vpcs ec2_client vpc_id) as [|vpc [|vpc' vpcs]]; [by eexists| |by eexists].
  destruct (DhcpOptionsId vpc) as [id|]; [|by eexists].
  destruct (describe_dhcp_options ec2_client id) as [|options [|o os]];
    [by eexists| |by eexists].
  destruct (domain_name_config (DhcpConfigurations options)); by eexists.
Qed.

Lemma get_dhcp_options_domain_mismatch ec2_client vpc_id :
  dhcp_mismatch ec2_client vpc_id ->
  outcome (get_dhcp_options_domain ec2_client vpc_id) = Ok None.
Proof.
  unfold get_dhcp_options_domain.
  intros [Hlen | vpc -> Hid | vpc id -> Hid Hlen | vpc id options -> Hid Hcfg0 Hcfg].
  - by destruct (describe_vpcs ec2_client vpc_id) as [|vpc [|vpc' vpcs]].
  - by rewrite Hid.
  - rewrite Hid. cbv beta iota.
    by destruct (describe_dhcp_options ec2_client id) as [|options [|o os]].
  - rewrite Hid. cbv beta iota. rewrite Hcfg0. cbv beta iota.
    by rewrite domain_name_config_none.
Qed.

Lemma get_dns_domain_untagged environ ec2_client vpc_id region tags :
  tags !! dns_domain_tag environ tags = None ->
  outcome (get_dns_domain environ ec2_client vpc_id region tags)
  = match outcome (get_dhcp_options_domain ec2_client vpc_id) with
    | Ok r => Ok (default (region +:+ ".compute.internal") r)
    | Raise e => Raise e
    end.
Proof.
  unfold dns_domain_tag, get_dns_domain. intros ->.
  unfold_M. unfold bind, outcome.
  by destruct (get_dhcp_options_domain ec2_client vpc_id) as [t [r|e]].
Qed.

Lemma get_dns_domain_returns environ ec2_client vpc_id region tags :
  exists d, outcome (get_dns_domain environ ec2_client vpc_id region tags) = Ok d.
Proof.
  destruct (tags !! dns_domain_tag environ tags) as [d|] eqn:Htag.
  - exists d. unfold dns_domain_tag in Htag. unfold get_dns_domain. by rewrite Htag.
  - rewrite get_dns_domain_untagged by done.
    destruct (get_dhcp_options_domain_returns ec2_client vpc_id) as [r ->]. by eexists.
Qed.

(** C7: a DNS-domain tag on the instance (named by the account tag setting,
    or the default name) is returned at once, with no call to EC2; without
    it the DHCP options' domain-name is returned when there is one network
    with one option set whose domain-name setting has one value; on every
    mismatch the result is "<region>.compute.internal"; the resolver always
    returns a domain. *)
Theorem domain_resolution_precedence :
  (forall environ ec2_client vpc_id region tags d,
     tags !! dns_domain_tag environ tags = Some d ->
     get_dns_domain environ ec2_client vpc_id region tags
     = ([Log INFO "dns_domain_tag_name_account_tag: {}"
           [AStr (get_setting environ dns_domain_tag_name_account_tag)];
         Log INFO "default_dns_domain_tag_name: {}"
           [AStr (get_setting environ default_dns_domain_tag_name)]],
        Ok d))
  /\ (forall environ ec2_client vpc_id region tags vpc id options pre config post d,
        tags !! dns_domain_tag environ tags = None ->
        describe_vpcs ec2_client vpc_id = [vpc] ->
        DhcpOptionsId vpc = Some id ->
        describe_dhcp_options ec2_client id = [options] ->
        DhcpConfigurations options = pre ++ config :: post ->
        (forall c, c ∈ pre -> dc_Key c <> Some "domain-name") ->
        dc_Key config = Some "domain-name" ->
        dc_Values config = [mkAttributeValue (Some d)] ->
        outcome (get_dns_domain environ ec2_client vpc_id region tags) = Ok d)
  /\ (forall environ ec2_client vpc_id region tags,
        tags !! dns_domain_tag environ tags = None ->
        dhcp_mismatch ec2_client vpc_id ->
        outcome (get_dns_domain environ ec2_client vpc_id region tags)
        = Ok (region +:+ ".compute.internal"))
  /\ (forall environ ec2_client vpc_id region tags,
        exists d, outcome (get_dns_domain environ ec2_client vpc_id region tags) = Ok d).
Proof.
  repeat split.
  - intros environ ec2_client vpc_id region tags d Htag.
    unfold dns_domain_tag in Htag. unfold get_dns_domain. by rewrite Htag.
  - intros environ ec2_client vpc_id region tags vpc id options pre config post d
      Htag Hvpcs Hid Hopts Hcfg Hpre Hk Hv.
    rewrite get_dns_domain_untagged by done.
    unfold get_dhcp_options_domain. rewrite Hvpcs, Hid. cbv beta iota.
    rewrite Hopts. cbv beta iota.
    by rewrite Hcfg, (domain_name_config_found pre config post d).
  - intros environ ec2_client vpc_id region tags Htag Hmis.
    rewrite get_dns_domain_untagged by done.
    by rewrite get_dhcp_options_domain_mismatch.
  - apply get_dns_domain_returns.
Qed.

Lemma domain_resolution_precedence_witness :
  outcome (get_dns_domain ∅ sample_empty_client "vpc-1" "us-east-1"
             {["fn.aws.joshhogle.com/update-route53-host-records/dns_domain" := "example.com"]})
  = Ok "example.com"
  /\ outcome (get_dns_domain ∅ (sample_ec2 web1_instance) "vpc-1" "us-east-1" ∅)
     = Ok "corp.internal"
  /\ outcome (get_dns_domain ∅ sample_empty_client "vpc-1" "us-east-1" ∅)
     = Ok "us-east-1.compute.internal".
Proof.
  destruct domain_resolution_precedence as (Htag & Hdhcp & Hfallback & _).
  split; [|split].
  - erewrite Htag; reflexivity.
  - eapply (Hdhcp ∅ (sample_ec2 web1_instance) "vpc-1" "us-east-1" ∅
              (mkVpc (Some "dopt-1")) "dopt-1"
              _ [mkDhcpConfiguration (Some "domain-name-servers")
                   [mkAttributeValue (Some "AmazonProvidedDNS")]]
              (mkDhcpConfiguration (Some "domain-name")
                 [mkAttributeValue (Some "corp.internal")]) []);
      try reflexivity.
    intros c Hc. apply list_elem_of_singleton in Hc. subst c. discriminate.
  - apply (Hfallback ∅ sample_empty_client "vpc-1" "us-east-1" ∅); [reflexivity|].
    apply not_one_vpc. simpl. discriminate.
Defined.

(** ** Registration *)

Lemma elem_bind_l {A B} (m : M A) (f : A -> M B) e :
  e ∈ trace m -> e ∈ trace (m ≫= f).
Proof.
  intros He. pose proof (trace_bind_prefix m f) as [k Hk].
  unfold_M. rewrite Hk. apply elem_of_app. by left.
Qed.

Lemma elem_bind_r {A B} (m : M A) (f : A -> M B) e a :
  outcome m = Ok a -> e ∈ trace (f a) -> e ∈ trace (m ≫= f).
Proof.
  destruct m as [t r]. unfold outcome. simpl. intros -> He.
  unfold_M. unfold bind, trace in *. destruct (f a) as [t' r']. simpl in *.
  apply elem_of_app. by right.
Qed.

Lemma outcome_bind {A B} (m : M A) (f : A -> M B) a :
  outcome m = Ok a -> outcome (m ≫= f) = outcome (f a).
Proof.
  destruct m as [t r]. unfold outcome. simpl. intros ->.
  unfold_M. unfold bind. by destruct (f a).
Qed.

Lemma outcome_bind_raise {A B} (m : M A) (f : A -> M B) e :
  outcome m = Raise e -> outcome (m ≫= f) = Raise e.
Proof. destruct m as [t r]. unfold outcome. simpl. by intros ->. Qed.

(** Step into the continuation of a bind whose first action is known to return. *)
Ltac enter_bind :=
  eapply elem_bind_r; [first [reflexivity | eassumption]|]; cbv beta iota.

Lemma get_hostname_outcome environ tags :
  outcome (get_hostname environ tags)
  = Ok (match tags !! hostname_tag environ tags with
        | Some h => Some h
        | None => tags !! "Name"
        end).
Proof.
  unfold get_hostname, hostname_tag. by destruct (tags !! default _ _).
Qed.

(** C10: for an instance (one reservation with one instance, with a private
    IP and a VPC id) whose tags hold neither the hostname tag nor "Name",
    [register_host] returns the empty list, its last act is the warning, and
    it calls nothing but [describe_instances]. *)
Theorem register_host_no_hostname environ route53_client ec2_client region instance_id
    reservation instance :
  describe_instances ec2_client instance_id = [reservation] ->
  Instances reservation = [instance] ->
  default "" (PrivateIpAddress instance) <> "" ->
  default "" (VpcId instance) <> "" ->
  tags_to_dict (Tags instance) !! hostname_tag environ (tags_to_dict (Tags instance)) = None ->
  tags_to_dict (Tags instance) !! "Name" = None ->
  outcome (register_host environ route53_client ec2_client region instance_id) = Ok (RList [])
  /\ last (trace (register_host environ route53_client ec2_client region instance_id))
     = Some (Log WARN "no hostname is defined for the instance - skipping registration" [])
  /\ Forall (fun e => is_log e = true \/ e = DescribeInstances instance_id)
       (trace (register_host environ route53_client ec2_client region instance_id)).
Proof.
  intros Hres Hinst Hip%String.eqb_neq Hvpc%String.eqb_neq Htag Hname.
  unfold register_host. rewrite Hres, Hinst.
  cbv zeta. rewrite Hip, Hvpc.
  unfold get_hostname. unfold hostname_tag in Htag. rewrite Htag, Hname.
  destruct (String.eqb (default "" (PublicIpAddress instance)) "");
    (split; [reflexivity|split; [reflexivity|]]);
    repeat (first [apply Forall_nil_2 | apply Forall_cons_2; [auto|]]).
Qed.

Lemma register_host_no_hostname_witness :
  outcome (register_host ∅ sample_route53 (sample_ec2 untagged_instance) "us-east-1" "i-1")
  = Ok (RList [])
  /\ last (trace (register_host ∅ sample_route53 (sample_ec2 untagged_instance)
                    "us-east-1" "i-1"))
     = Some (Log WARN "no hostname is defined for the instance - skipping registration" [])
  /\ Forall (fun e => is_log e = true \/ e = DescribeInstances "i-1")
       (trace (register_host ∅ sample_route53 (sample_ec2 untagged_instance)
                 "us-east-1" "i-1")).
Proof.
  apply (register_host_no_hostname ∅ sample_route53 (sample_ec2 untagged_instance)
           "us-east-1" "i-1" (mkReservation [untagged_instance]) untagged_instance);
    first [reflexivity | discriminate].
Defined.

(** C9: for an instance with a hostname whose private IP is a.b.c.d (four
    labels without a dot), [register_host] derives the PTR name
    "d.c.b.a.in-addr.arpa" and the reverse zone "c.b.a.in-addr.arpa". *)
Theorem register_host_ptr_names environ route53_client ec2_client region instance_id
    reservation instance a b c d h :
  describe_instances ec2_client instance_id = [reservation] ->
  Instances reservation = [instance] ->
  PrivateIpAddress instance = Some (a +:+ "." +:+ b +:+ "." +:+ c +:+ "." +:+ d) ->
  Py.contains dot a = false -> Py.contains dot b = false ->
  Py.contains dot c = false -> Py.contains dot d = false ->
  default "" (VpcId instance) <> "" ->
  outcome (get_hostname environ (tags_to_dict (Tags instance))) = Ok (Some h) ->
  Log INFO "ptr_record: {}" [AStr (d +:+ "." +:+ c +:+ "." +:+ b +:+ "." +:+ a +:+ ".in-addr.arpa")]
    ∈ trace (register_host environ route53_client ec2_client region instance_id)
  /\ Log INFO "arpa_zone: {}" [AStr (c +:+ "." +:+ b +:+ "." +:+ a +:+ ".in-addr.arpa")]
       ∈ trace (register_host environ route53_client ec2_client region instance_id).
Proof.
  intros Hres Hinst Hip Ha Hb Hc Hd Hvpc%String.eqb_neq Hhost.
  assert (Py.split dot (a +:+ "." +:+ b +:+ "." +:+ c +:+ "." +:+ d) = [a; b; c; d]) as Hoct.
  { rewrite !split_dot by done. by rewrite split_no_sep. }
  assert (String.eqb (a +:+ "." +:+ b +:+ "." +:+ c +:+ "." +:+ d) "" = false) as Hne.
  { apply String.eqb_neq. intros Heq. rewrite Heq in Hoct. discriminate Hoct. }
  assert (default "" (PrivateIpAddress instance)
          = a +:+ "." +:+ b +:+ "." +:+ c +:+ "." +:+ d) as Hdef by (by rewrite Hip).
  unfold register_host. rewrite Hres, Hinst. cbv zeta.
  rewrite Hdef, Hne, Hvpc, Hoct.
  set (tags := tags_to_dict (Tags instance)) in *.
  assert (exists x, outcome
            (if Nat.eqb (length (Py.split dot h)) 1
             then dns_domain ← get_dns_domain environ ec2_client
                                 (default "" (VpcId instance)) region tags;
                  mret (h, dns_domain, h +:+ "." +:+ dns_domain)
             else mret (default "" (head (Py.split dot h)),
                        Py.join "." (tail (Py.split dot h)),
                        default "" (head (Py.split dot h)))) = Ok x) as [[[h' dom] name] Hident].
  { destruct (Nat.eqb _ 1); [|by eexists].
    destruct (get_dns_domain_returns environ ec2_client (default "" (VpcId instance)) region
                tags) as [dom Hdom].
    destruct (get_dns_domain _ _ _ _ _) as [t r]. unfold outcome in Hdom. simpl in Hdom.
    subst r. by eexists. }
  destruct (String.eqb (default "" (PublicIpAddress instance)) "");
    (split; [do 14 enter_bind | do 18 enter_bind]; apply elem_bind_l; by left).
Qed.

Lemma register_host_ptr_names_witness :
  Log INFO "ptr_record: {}" [AStr "3.2.1.10.in-addr.arpa"]
    ∈ trace (register_host ∅ sample_route53 (sample_ec2 web1_instance) "us-east-1" "i-1")
  /\ Log INFO "arpa_zone: {}" [AStr "2.1.10.in-addr.arpa"]
       ∈ trace (register_host ∅ sample_route53 (sample_ec2 web1_instance) "us-east-1" "i-1").
Proof.
  apply (register_host_ptr_names ∅ sample_route53 (sample_ec2 web1_instance) "us-east-1" "i-1"
           (mkReservation [web1_instance]) web1_instance "10" "1" "2" "3" "web1");
    first [reflexivity | discriminate].
Defined.

(** *** Identity resolution *)

(** A bare hostname resolves to (h, d, h.d) with the resolver's domain d. *)
Lemma resolved_identity_bare h d :
  Py.contains dot h = false -> resolved_identity h d = (h, d, h +:+ "." +:+ d).
Proof. intros Hh. unfold resolved_identity. by rewrite split_no_sep. Qed.

(** A raw hostname h.d resolves to hostname h and domain d, but its fqdn is
    h alone: [fqdn = hostname] is read after [hostname] was cut to its first
    label. *)
Lemma resolved_identity_dotted h d default_dns_domain :
  Py.contains dot h = false ->
  resolved_identity (h +:+ "." +:+ d) default_dns_domain = (h, d, h).
Proof.
  intros Hh. unfold resolved_identity. rewrite split_dot by done.
  pose proof (split_nonempty dot d).
  destruct (Py.split dot d) as [|p ps] eqn:Ed; [done|].
  cbn [length Nat.eqb head tail default from_option id].
  change "."%string with (String dot EmptyString). by rewrite <- Ed, join_split.
Qed.

Lemma zone_lookups_return route53_client vpc_id region alias_type dns_domain :
  exists zone,
    outcome (if String.eqb alias_type "private" then
               get_private_zone_id route53_client vpc_id region (Some dns_domain)
             else if String.eqb alias_type "public" then
               get_public_zone_id route53_client (Some dns_domain)
             else mret None) = Ok zone.
Proof.
  destruct (String.eqb alias_type "private").
  - rewrite get_private_zone_id_outcome. by eexists.
  - destruct (String.eqb alias_type "public"); [|by eexists].
    rewrite get_public_zone_id_outcome. by eexists.
Qed.

(** What [get_aliases] stores for an alias is the identity above, computed
    from the alias' hostname tag, or from the alias itself. *)
Lemma get_aliases_body_identity route53_client vpc_id region tags aliases_tag alias_type
    default_dns_domain settings alias :
  let raw := default alias
               (tags !! ((aliases_tag +:+ "/" +:+ alias_type +:+ "/" +:+ alias)
                         +:+ "/hostname")) in
  exists zone,
    outcome (get_aliases_body route53_client vpc_id region tags aliases_tag alias_type
               default_dns_domain settings alias)
    = Ok (dict_set alias
            (mkAliasSettings (resolved_identity raw default_dns_domain).1.1
               (resolved_identity raw default_dns_domain).1.2
               (resolved_identity raw default_dns_domain).2 zone)
            settings).
Proof.
  intros raw.
  assert (forall dns_domain, exists zone,
            outcome (match tags !! ((aliases_tag +:+ "/" +:+ alias_type +:+ "/" +:+ alias)
                                    +:+ "/zone_id") with
                     | Some zone_id => mret (Some zone_id)
                     | None =>
                         if String.eqb alias_type "private" then
                           get_private_zone_id route53_client vpc_id region (Some dns_domain)
                         else if String.eqb alias_type "public" then
                           get_public_zone_id route53_client (Some dns_domain)
                         else mret None
                     end) = Ok zone) as Hzone.
  { intros dns_domain.
    destruct (tags !! ((aliases_tag +:+ "/" +:+ alias_type +:+ "/" +:+ alias) +:+ "/zone_id"));
      [by eexists|].
    apply zone_lookups_return. }
  assert (outcome
            (match tags !! ((aliases_tag +:+ "/" +:+ alias_type +:+ "/" +:+ alias)
                            +:+ "/hostname") with
             | None =>
                 log WARN "   no hostname found for {} alias '{}' - using alias as hostname"
                   [AStr alias_type; AStr alias];;
                 mret alias
             | Some hostname => mret hostname
             end) = Ok raw) as Hraw.
  { subst raw.
    by destruct (tags !! ((aliases_tag +:+ "/" +:+ alias_type +:+ "/" +:+ alias)
                          +:+ "/hostname")). }
  unfold get_aliases_body, resolved_identity. cbv zeta.
  destruct (Nat.eqb (length (Py.split dot raw)) 1) eqn:Hbare; cbn [fst snd].
  - destruct (Hzone default_dns_domain) as [zone Hz]. exists zone.
    erewrite outcome_bind by reflexivity.
    erewrite outcome_bind by exact Hraw.
    rewrite Hbare. do 3 (erewrite outcome_bind by reflexivity).
    erewrite outcome_bind by exact Hz. by erewrite outcome_bind by reflexivity.
  - destruct (Hzone (Py.join "." (tail (Py.split dot raw)))) as [zone Hz]. exists zone.
    erewrite outcome_bind by reflexivity.
    erewrite outcome_bind by exact Hraw.
    rewrite Hbare. do 3 (erewrite outcome_bind by reflexivity).
    erewrite outcome_bind by exact Hz. by erewrite outcome_bind by reflexivity.
Qed.

Lemma change_record_outcome action route53_client zone record_type record_name record_data :
  outcome (change_record action route53_client zone record_type record_name record_data)
  = Ok tt.
Proof. unfold change_record. by destruct (change_resource_record_sets _ _ _ _ _ _ _). Qed.

(** The identity [register_host] logs for the instance is the identity above,
    computed from the hostname tag with the resolver's domain. *)
Lemma register_host_identity environ route53_client ec2_client region instance_id
    reservation instance raw d :
  describe_instances ec2_client instance_id = [reservation] ->
  Instances reservation = [instance] ->
  default "" (PrivateIpAddress instance) <> "" ->
  default "" (VpcId instance) <> "" ->
  outcome (get_hostname environ (tags_to_dict (Tags instance))) = Ok (Some raw) ->
  outcome (get_dns_domain environ ec2_client (default "" (VpcId instance)) region
             (tags_to_dict (Tags instance))) = Ok d ->
  Log INFO "hostname: {}" [AStr (resolved_identity raw d).1.1]
    ∈ trace (register_host environ route53_client ec2_client region instance_id)
  /\ Log INFO "dns_domain: {}" [AStr (resolved_identity raw d).1.2]
       ∈ trace (register_host environ route53_client ec2_client region instance_id)
  /\ Log INFO "fqdn: {}" [AStr (resolved_identity raw d).2]
       ∈ trace (register_host environ route53_client ec2_client region instance_id).
Proof.
  intros Hres Hinst Hip%String.eqb_neq Hvpc%String.eqb_neq Hhost Hdom.
  unfold register_host. rewrite Hres, Hinst. cbv zeta. rewrite Hip, Hvpc.
  set (tags := tags_to_dict (Tags instance)) in *.
  assert (outcome
            (if Nat.eqb (length (Py.split dot raw)) 1
             then dns_domain ← get_dns_domain environ ec2_client
                                 (default "" (VpcId instance)) region tags;
                  mret (raw, dns_domain, raw +:+ "." +:+ dns_domain)
             else mret (default "" (head (Py.split dot raw)),
                        Py.join "." (tail (Py.split dot raw)),
                        default "" (head (Py.split dot raw))))
          = Ok (resolved_identity raw d)) as Hident.
  { unfold resolved_identity. destruct (Nat.eqb _ 1); [|done].
    by erewrite outcome_bind by exact Hdom. }
  destruct (resolved_identity raw d) as [[h' dom] name]. cbn [fst snd].
  destruct (String.eqb (default "" (PublicIpAddress instance)) "");
    (split; [|split]);
    [do 7 enter_bind | do 8 enter_bind | do 9 enter_bind
    |do 7 enter_bind | do 8 enter_bind | do 9 enter_bind];
    apply elem_bind_l; by left.
Qed.

(** C1 at a failing input: for the hostname "web1.corp.internal" and the
    alias "api.corp.internal" the fqdn the code resolves is the first label
    alone, "web1" and "api", and the records are submitted under these names. *)
Theorem identity_fqdn_loses_domain :
  outcome (get_aliases sample_route53 "vpc-1" "us-east-1" (tags_to_dict (Tags fqdn_instance))
             "fn.aws.joshhogle.com/update-route53-host-records/aliases" "private"
             "corp.internal")
  = Ok [("api.corp.internal", mkAliasSettings "api" "corp.internal" "api" (Some "Z1"))]
  /\ logged "fqdn: {}"
       (trace (register_host ∅ sample_route53 (sample_ec2 fqdn_instance) "us-east-1" "i-1"))
     = [[AStr "web1"]]
  /\ submitted (trace (register_host ∅ sample_route53 (sample_ec2 fqdn_instance)
                         "us-east-1" "i-1"))
     = [mkDnsRecord "Z1" "A" "web1." "10.1.2.3";
        mkDnsRecord "Z1" "A" "api." "10.1.2.3";
        mkDnsRecord "Z2" "PTR" "3.2.1.10.in-addr.arpa." "web1."].
Proof. by vm_compute. Qed.

(** *** What [register_host] returns *)

Lemma outcome_bind_Ok {A B} (m : M A) (f : A -> M B) b :
  outcome (m ≫= f) = Ok b -> exists a, outcome m = Ok a /\ outcome (f a) = Ok b.
Proof. apply outcome_bind_inv. Qed.

(** Follow a run that returned through its binds and branches. *)
Ltac follow_outcome H :=
  repeat first
    [ apply outcome_bind_Ok in H as (? & _ & H)
    | match type of H with
      | outcome (match ?x with _ => _ end) = _ => destruct x
      | outcome (if ?b then _ else _) = _ => destruct b
      end ].

(** Whatever the instance, the list [register_host] returns is empty: the
    only [return records] is the one taken when there is no hostname; every
    later exit is [return 0]. *)
Lemma register_host_returns_no_records environ route53_client ec2_client region instance_id
    records :
  outcome (register_host environ route53_client ec2_client region instance_id)
  = Ok (RList records) ->
  records = [].
Proof.
  unfold register_host. intros H.
  destruct (describe_instances ec2_client instance_id) as [|reservation [|? ?]];
    [done| |done].
  destruct (Instances reservation) as [|instance [|? ?]]; [done| |done].
  cbv zeta in H. follow_outcome H; first [discriminate H | by injection H].
Qed.

(** C2 at a failing input: for an instance with a hostname and one private
    alias, [register_host] submits three upserts and returns the integer 0,
    not the list of the records. *)
Theorem register_host_returns_zero :
  submitted (trace (register_host ∅ sample_route53 (sample_ec2 aliased_instance)
                      "us-east-1" "i-1"))
  = [mkDnsRecord "Z1" "A" "web1.corp.internal." "10.1.2.3";
     mkDnsRecord "Z1" "A" "db.corp.internal." "10.1.2.3";
     mkDnsRecord "Z2" "PTR" "3.2.1.10.in-addr.arpa." "web1.corp.internal."]
  /\ outcome (register_host ∅ sample_route53 (sample_ec2 aliased_instance) "us-east-1" "i-1")
     = Ok (RInt 0).
Proof. by vm_compute. Qed.

(** *** The default private domain *)

(** C3 at a failing input: for region "us-east-1" the lookup of
    "us-east-1.compute.internal" is not skipped: it lists the hosted zones,
    and returns the zone of that name attached to the network. The guard
    compares the name with the unformatted "{}.compute.internal". *)
Theorem default_private_domain_is_looked_up :
  get_private_zone_id compute_internal_route53 "vpc-1" "us-east-1"
    (Some ("us-east-1" +:+ ".compute.internal"))
  = ([ListHostedZones;
      Log INFO "searching for matching zone: {}" [AStr "us-east-1.compute.internal."];
      Log INFO "found matching zone ID: {} -- verifying VPC attachment" [AStr "Z9"];
      GetHostedZone "Z9";
      Log INFO "zone is attached to VPC" []],
     Ok (Some "Z9")).
Proof. by vm_compute. Qed.

(** The only zone name the guard skips is the literal one. *)
Lemma get_private_zone_id_skips_literal route53_client vpc_id region :
  get_private_zone_id route53_client vpc_id region (Some "{}.compute.internal")
  = ([Log INFO "default private zone in use - skipping zone ID lookup" []], Ok None).
Proof. done. Qed.

Lemma append_length a b : String.length (a +:+ b) = String.length a + String.length b.
Proof.
  induction a as [|c a IH]; [done|].
  change (String c a +:+ b) with (String c (a +:+ b)). simpl. by rewrite IH.
Qed.

Lemma append_cancel_r a b s : a +:+ s = b +:+ s -> a = b.
Proof.
  revert b. induction a as [|c a IH]; intros [|c' b] H; [done| | |].
  - apply (f_equal String.length) in H. rewrite ?append_length in H. simpl in H. lia.
  - apply (f_equal String.length) in H. rewrite ?append_length in H. simpl in H. lia.
  - change (String c (a +:+ s) = String c' (b +:+ s)) in H.
    injection H as -> H. f_equal. by apply IH.
Qed.

(** For every region but the string "{}", the lookup of the region's default
    domain starts by listing the hosted zones. *)
Lemma default_private_domain_lists_zones route53_client vpc_id region :
  region <> "{}" ->
  exists t,
    trace (get_private_zone_id route53_client vpc_id region
             (Some (region +:+ ".compute.internal")))
    = ListHostedZones :: t.
Proof.
  intros Hregion. unfold get_private_zone_id.
  assert (String.eqb (region +:+ ".compute.internal") "" = false) as ->.
  { apply String.eqb_neq. intros H. apply (f_equal String.length) in H.
    rewrite append_length in H. simpl in H. lia. }
  assert (String.eqb (region +:+ ".compute.internal") "{}.compute.internal" = false) as ->.
  { apply String.eqb_neq. intros H. apply Hregion.
    by apply (append_cancel_r region "{}" ".compute.internal"). }
  unfold_M. unfold bind, trace.
  destruct (private_zone_walk _ _ _ _) as [t r]. by eexists.
Qed.

(** *** Instances without an aliases tag *)

Lemma get_aliases_without_tag route53_client vpc_id region tags aliases_tag alias_type
    default_dns_domain :
  tags !! (aliases_tag +:+ "/" +:+ alias_type) = None ->
  get_aliases route53_client vpc_id region tags aliases_tag alias_type default_dns_domain
  = ([], Raise (AttributeError "'list' object has no attribute 'split'")).
Proof. unfold get_aliases. by intros ->. Qed.

(** Every instance with a hostname, a well-formed private IP and no private
    aliases tag makes [register_host] raise. *)
Lemma register_host_without_aliases_raises environ route53_client ec2_client region
    instance_id reservation instance a b c d h :
  describe_instances ec2_client instance_id = [reservation] ->
  Instances reservation = [instance] ->
  PrivateIpAddress instance = Some (a +:+ "." +:+ b +:+ "." +:+ c +:+ "." +:+ d) ->
  Py.contains dot a = false -> Py.contains dot b = false ->
  Py.contains dot c = false -> Py.contains dot d = false ->
  default "" (VpcId instance) <> "" ->
  outcome (get_hostname environ (tags_to_dict (Tags instance))) = Ok (Some h) ->
  tags_to_dict (Tags instance)
    !! aliases_tag_of environ (tags_to_dict (Tags instance)) "private" = None ->
  outcome (register_host environ route53_client ec2_client region instance_id)
  = Raise (AttributeError "'list' object has no attribute 'split'").
Proof.
  intros Hres Hinst Hip Ha Hb Hc Hd Hvpc%String.eqb_neq Hhost Htag.
  assert (Py.split dot (a +:+ "." +:+ b +:+ "." +:+ c +:+ "." +:+ d) = [a; b; c; d]) as Hoct.
  { rewrite !split_dot by done. by rewrite split_no_sep. }
  assert (String.eqb (a +:+ "." +:+ b +:+ "." +:+ c +:+ "." +:+ d) "" = false) as Hne.
  { apply String.eqb_neq. intros Heq. rewrite Heq in Hoct. discriminate Hoct. }
  assert (default "" (PrivateIpAddress instance)
          = a +:+ "." +:+ b +:+ "." +:+ c +:+ "." +:+ d) as Hdef by (by rewrite Hip).
  unfold register_host. rewrite Hres, Hinst. cbv zeta.
  rewrite Hdef, Hne, Hvpc, Hoct.
  set (tags := tags_to_dict (Tags instance)) in *.
  assert (exists x, outcome
            (if Nat.eqb (length (Py.split dot h)) 1
             then dns_domain ← get_dns_domain environ ec2_client
                                 (default "" (VpcId instance)) region tags;
                  mret (h, dns_domain, h +:+ "." +:+ dns_domain)
             else mret (default "" (head (Py.split dot h)),
                        Py.join "." (tail (Py.split dot h)),
                        default "" (head (Py.split dot h)))) = Ok x) as [[[h' dom] name] Hident].
  { destruct (Nat.eqb _ 1); [|by eexists].
    destruct (get_dns_domain_returns environ ec2_client (default "" (VpcId instance)) region
                tags) as [dom Hdom].
    eexists. by erewrite outcome_bind by exact Hdom. }
  assert (exists public_ip,
            outcome (if String.eqb (default "" (PublicIpAddress instance)) "" then
                       log INFO "host does not have a public IP" [];;
                       mret None
                     else
                       log INFO "public_ip: {}" [AStr (default "" (PublicIpAddress instance))];;
                       mret (Some (default "" (PublicIpAddress instance))))
            = Ok public_ip) as [public_ip Hpub].
  { destruct (String.eqb (default "" (PublicIpAddress instance)) ""); by eexists. }
  do 2 (erewrite outcome_bind by reflexivity).
  erewrite outcome_bind by exact Hpub.
  do 2 (erewrite outcome_bind by reflexivity).
  erewrite outcome_bind by exact Hhost. cbv beta iota.
  erewrite outcome_bind by exact Hident. cbv beta iota.
  do 13 (erewrite outcome_bind by reflexivity).
  erewrite outcome_bind by apply get_private_zone_id_outcome.
  match goal with
  | |- outcome (?m ≫= _) = _ =>
      assert (exists records, outcome m = Ok records) as [records Hrec]
  end.
  { destruct (if String.eqb dom "{}.compute.internal" then _ else _); [|by eexists].
    eexists. erewrite outcome_bind by reflexivity.
    by erewrite outcome_bind by apply change_record_outcome. }
  erewrite outcome_bind by exact Hrec.
  do 3 (erewrite outcome_bind by reflexivity).
  apply outcome_bind_raise.
  unfold aliases_tag_of in Htag. by rewrite get_aliases_without_tag.
Qed.

(** C4 at a failing input: for the instance tagged [{Name: "web1"}] the run
    submits the canonical A record and then raises, at the [split] of the
    list that stands in for the missing aliases tag. *)
Theorem register_host_raises_without_aliases_tag :
  submitted (trace (register_host ∅ sample_route53 (sample_ec2 web1_instance)
                      "us-east-1" "i-1"))
  = [mkDnsRecord "Z1" "A" "web1.corp.internal." "10.1.2.3"]
  /\ outcome (register_host ∅ sample_route53 (sample_ec2 web1_instance) "us-east-1" "i-1")
     = Raise (AttributeError "'list' object has no attribute 'split'").
Proof. by vm_compute. Qed.

(** * Further properties of the code *)

(** ** Traces *)

Lemma trace_bind {A B} (m : M A) (f : A -> M B) :
  trace (m ≫= f)
  = trace m ++ match outcome m with
               | Ok a => trace (f a)
               | Raise _ => []
               end.
Proof.
  destruct m as [t [a|e]]; unfold_M; unfold bind, trace, outcome; simpl.
  - by destruct (f a).
  - by rewrite app_nil_r.
Qed.

Lemma calls_app t1 t2 : calls (t1 ++ t2) = calls t1 ++ calls t2.
Proof. apply List.filter_app. Qed.

Lemma calls_bind {A B} (m : M A) (f : A -> M B) :
  calls (trace (m ≫= f))
  = calls (trace m) ++ match outcome m with
                       | Ok a => calls (trace (f a))
                       | Raise _ => []
                       end.
Proof. rewrite trace_bind, calls_app. by destruct (outcome m). Qed.

Lemma calls_log {B} lvl template args (f : unit -> M B) :
  calls (trace (log lvl template args ≫= f)) = calls (trace (f tt)).
Proof. by rewrite calls_bind. Qed.

(** ** Tag model *)

(** X1: the value [tags_to_dict] holds for a key is the value kept of the
    last entry with that key that has one: a later entry overwrites an
    earlier one, and an entry without a value leaves the earlier one. *)
Theorem tags_to_dict_last_wins {V} `{NoneTest V} (tags : list (Tag V)) (k : string) :
  tags_to_dict tags !! k
  = last (omap (fun t => if decide (Key t = Some k) then kept_value t else None) tags).
Proof.
  induction tags as [|t tags IH] using rev_ind; [done|].
  rewrite tags_to_dict_snoc, omap_app. cbn [omap list_omap].
  unfold tags_to_dict_step, kept_value.
  destruct (Key t) as [key|].
  - destruct (decide (Some key = Some k)) as [[= ->]|Hne].
    + destruct (tag_values t) as [values|]; [|by rewrite app_nil_r].
      destruct (is_none values); [by rewrite app_nil_r|].
      by rewrite lookup_insert_eq, last_snoc.
    + rewrite app_nil_r.
      destruct (tag_values t) as [values|]; [|done].
      destruct (is_none values); [done|].
      rewrite lookup_insert_ne; [done|congruence].
  - destruct (decide (None = Some k)); [done|]. by rewrite app_nil_r.
Qed.

(** ** EC2 helpers *)

(** X2: the hostname tag (the tag named by the account tag setting, or the
    default name) wins over "Name", which is read only when the hostname tag
    is absent; the lookup calls no client. *)
Theorem get_hostname_precedence environ (tags : gmap string string) :
  (forall h, tags !! hostname_tag environ tags = Some h ->
             outcome (get_hostname environ tags) = Ok (Some h))
  /\ (tags !! hostname_tag environ tags = None ->
      outcome (get_hostname environ tags) = Ok (tags !! "Name"))
  /\ calls (trace (get_hostname environ tags)) = [].
Proof.
  unfold get_hostname, hostname_tag. repeat split.
  - by intros h ->.
  - by intros ->.
  - by destruct (tags !! default _ _).
Qed.

Lemma get_hostname_precedence_witness :
  outcome (get_hostname ∅
             {["Name" := "web1";
               "fn.aws.joshhogle.com/update-route53-host-records/hostname" := "db7"]})
  = Ok (Some "db7")
  /\ outcome (get_hostname ∅ {["Name" := "web1"]}) = Ok (Some "web1").
Proof.
  split.
  - apply (proj1 (get_hostname_precedence ∅ _)). reflexivity.
  - refine (eq_trans (proj1 (proj2 (get_hostname_precedence ∅ {["Name" := "web1"]})) _) _);
      vm_compute; reflexivity.
Defined.

Lemma domain_name_config_first_single pre config post value :
  (forall c, c ∈ pre -> dc_Key c = Some "domain-name" -> length (dc_Values c) <> 1) ->
  dc_Key config = Some "domain-name" ->
  dc_Values config = [value] ->
  domain_name_config (pre ++ config :: post) = Some (av_Value value).
Proof.
  intros Hpre Hk Hv. induction pre as [|c pre IH]; simpl.
  - rewrite Hv. by destruct (decide _).
  - assert (domain_name_config (pre ++ config :: post) = Some (av_Value value)) as Hrest.
    { apply IH. intros c' ?. apply Hpre. by right. }
    destruct (decide (dc_Key c = Some "domain-name")) as [Hc|_]; [|done].
    pose proof (Hpre c ltac:(by left) Hc) as Hlen.
    destruct (dc_Values c) as [|v [|v' vs]]; done.
Qed.

(** X3: with one network and one option set, the first "domain-name" setting
    that has exactly one value decides the DHCP domain: settings with no or
    several values before it are passed over, later settings are never
    read, and a value without "Value" gives None even when a later setting
    has one. *)
Theorem dhcp_domain_first_single_value ec2_client vpc_id vpc id options pre config post value :
  describe_vpcs ec2_client vpc_id = [vpc] ->
  DhcpOptionsId vpc = Some id ->
  describe_dhcp_options ec2_client id = [options] ->
  DhcpConfigurations options = pre ++ config :: post ->
  (forall c, c ∈ pre -> dc_Key c = Some "domain-name" -> length (dc_Values c) <> 1) ->
  dc_Key config = Some "domain-name" ->
  dc_Values config = [value] ->
  outcome (get_dhcp_options_domain ec2_client vpc_id) = Ok (av_Value value).
Proof.
  intros Hvpcs Hid Hopts Hcfg Hpre Hk Hv.
  unfold get_dhcp_options_domain. rewrite Hvpcs, Hid. cbv beta iota.
  rewrite Hopts. cbv beta iota.
  by rewrite Hcfg, (domain_name_config_first_single pre config post value).
Qed.

Lemma dhcp_domain_first_single_value_witness :
  outcome (get_dhcp_options_domain
             (mkEc2Client (fun _ => []) (fun _ => [mkVpc (Some "dopt-1")])
                (fun _ => [mkDhcpOptions
                             [mkDhcpConfiguration (Some "domain-name") [];
                              mkDhcpConfiguration (Some "domain-name") [mkAttributeValue None];
                              mkDhcpConfiguration (Some "domain-name")
                                [mkAttributeValue (Some "corp.internal")]]]))
             "vpc-1")
  = Ok None.
Proof.
  eapply (dhcp_domain_first_single_value _ "vpc-1" (mkVpc (Some "dopt-1")) "dopt-1" _
            [mkDhcpConfiguration (Some "domain-name") []]
            (mkDhcpConfiguration (Some "domain-name") [mkAttributeValue None])
            [mkDhcpConfiguration (Some "domain-name") [mkAttributeValue (Some "corp.internal")]]
            (mkAttributeValue None));
    try reflexivity.
  intros c Hc _. apply list_elem_of_singleton in Hc. subst c. simpl. discriminate.
Defined.

(** ** Zone locator *)

Lemma zone_candidates_one_label name :
  Py.contains dot name = false -> zone_candidates name = [].
Proof. intros Hn. unfold zone_candidates. by rewrite split_no_sep. Qed.

(** X4: a name of one label (no dot) never finds a zone, public or private,
    whatever the catalog holds: a zone is only looked for under names of at
    least two labels. *)
Theorem zone_lookup_needs_two_labels route53_client vpc_id region zone_name :
  Py.contains dot zone_name = false ->
  outcome (get_public_zone_id route53_client (Some zone_name)) = Ok None
  /\ outcome (get_private_zone_id route53_client vpc_id region (Some zone_name)) = Ok None.
Proof.
  intros Hn. rewrite get_public_zone_id_outcome, get_private_zone_id_outcome.
  rewrite zone_candidates_one_label by done. split; [done|].
  by destruct (String.eqb zone_name "{}.compute.internal").
Qed.

Lemma zone_lookup_needs_two_labels_witness :
  outcome (get_public_zone_id
             (mkRoute53Client [mkHostedZone "Z5" "internal." None] (fun _ => [])
                (fun _ _ _ _ _ _ => true))
             (Some "internal"))
  = Ok None
  /\ outcome (get_private_zone_id
                (mkRoute53Client [mkHostedZone "Z5" "internal." None] (fun _ => [])
                   (fun _ _ _ _ _ _ => true))
                "vpc-1" "us-east-1" (Some "internal"))
     = Ok None.
Proof. apply zone_lookup_needs_two_labels. reflexivity. Defined.

Lemma public_zone_walk_calls hosted_zones zone_parts :
  calls (trace (public_zone_walk hosted_zones zone_parts)) = [].
Proof.
  induction zone_parts as [|p rest IH]; [done|].
  destruct rest as [|q rest]; [done|].
  rewrite public_zone_walk_cons, calls_log.
  by destruct (public_zone_scan _ hosted_zones).
Qed.

(** X5: an id the public lookup returns is the id of a catalog zone that is
    not private and bears the name of a candidate; the lookup lists the
    hosted zones once (not at all for the empty name) and calls nothing else. *)
Theorem public_lookup_sound route53 zone_name :
  (forall id,
     outcome (get_public_zone_id route53 (Some zone_name)) = Ok (Some id) ->
     exists zone,
       zone ∈ list_hosted_zones route53 /\ Id zone = id
       /\ private_zone zone = false /\ Name zone ∈ zone_candidates zone_name)
  /\ calls (trace (get_public_zone_id route53 (Some zone_name)))
     = if String.eqb zone_name "" then [] else [ListHostedZones].
Proof.
  split.
  - intros id. rewrite get_public_zone_id_outcome.
    intros [= (zone & candidate & Hz & Hc & Hhit & Hid)%first_match_Some].
    unfold public_hit in Hhit. apply andb_true_iff in Hhit as [Hp Hn].
    apply String.eqb_eq in Hn. apply negb_true_iff in Hp.
    exists zone. subst. done.
  - unfold get_public_zone_id. destruct (String.eqb zone_name ""); [done|].
    rewrite calls_bind. cbn [outcome emit snd trace fst].
    by rewrite public_zone_walk_calls.
Qed.

Lemma public_lookup_sound_witness :
  exists zone,
    zone ∈ list_hosted_zones sample_route53 /\ Id zone = "Z3"
    /\ private_zone zone = false /\ Name zone ∈ zone_candidates "www.example.com".
Proof.
  apply (proj1 (public_lookup_sound sample_route53 "www.example.com") "Z3"). reflexivity.
Defined.

(** The calls the private lookup may make for a catalog and a list of
    candidates: the attachments of a private zone named by a candidate. *)
Lemma private_zone_scan_calls route53_client vpc_id check_zone hosted_zones :
  Forall (fun e => exists zone,
            zone ∈ hosted_zones /\ private_zone zone = true /\ Name zone = check_zone
            /\ e = GetHostedZone (Id zone))
    (calls (trace (private_zone_scan route53_client vpc_id check_zone hosted_zones))).
Proof.
  induction hosted_zones as [|zone rest IH]; [by apply Forall_nil_2|].
  assert (Forall (fun e => exists zone', zone' ∈ zone :: rest /\ private_zone zone' = true
                                          /\ Name zone' = check_zone
                                          /\ e = GetHostedZone (Id zone'))
            (calls (trace (private_zone_scan route53_client vpc_id check_zone rest))))
    as Hrest.
  { eapply Forall_impl; [exact IH|]. intros e (z & ? & ? & ? & ?). exists z.
    repeat split; try done. by right. }
  cbn [private_zone_scan].
  destruct (private_zone zone && String.eqb (Name zone) check_zone) eqn:Hhit; [|done].
  apply andb_true_iff in Hhit as [Hp Hn%String.eqb_eq].
  rewrite calls_log, calls_bind. cbn [outcome emit snd trace fst].
  change (calls [GetHostedZone (Id zone)]) with [GetHostedZone (Id zone)].
  apply Forall_cons_2.
  { exists zone. repeat split; try done. by left. }
  destruct (vpc_attached vpc_id _); [by apply Forall_nil_2|].
  by rewrite calls_log.
Qed.

Lemma private_zone_walk_calls route53_client vpc_id hosted_zones zone_parts :
  Forall (fun e => exists zone,
            zone ∈ hosted_zones /\ private_zone zone = true
            /\ Name zone ∈ candidates_of zone_parts /\ e = GetHostedZone (Id zone))
    (calls (trace (private_zone_walk route53_client vpc_id hosted_zones zone_parts))).
Proof.
  induction zone_parts as [|p rest IH]; [by apply Forall_nil_2|].
  destruct rest as [|q rest]; [by apply Forall_nil_2|].
  rewrite private_zone_walk_cons, candidates_of_cons, calls_log, calls_bind.
  apply Forall_app. split.
  - eapply Forall_impl; [apply private_zone_scan_calls|].
    intros e (z & Hz & Hp & Hn & He). exists z. repeat split; try done.
    rewrite Hn. by left.
  - rewrite private_zone_scan_outcome.
    destruct (find _ hosted_zones); [by apply Forall_nil_2|].
    cbn [fmap option_fmap option_map].
    eapply Forall_impl; [exact IH|].
    intros e (z & ? & ? & ? & ?). exists z. repeat split; try done. by right.
Qed.

(** X6: the private lookup calls Route 53 only to list the hosted zones and
    to read the attachments of private zones that bear the name of a
    candidate: it never reads the attachments of a public zone or of a zone
    of another name, and never changes a record. *)
Theorem private_lookup_calls route53_client vpc_id region zone_name :
  Forall (fun e => e = ListHostedZones
                   \/ exists zone,
                        zone ∈ list_hosted_zones route53_client /\ private_zone zone = true
                        /\ Name zone ∈ zone_candidates zone_name
                        /\ e = GetHostedZone (Id zone))
    (calls (trace (get_private_zone_id route53_client vpc_id region (Some zone_name)))).
Proof.
  unfold get_private_zone_id.
  destruct (String.eqb zone_name ""); [by apply Forall_nil_2|].
  destruct (String.eqb zone_name "{}.compute.internal"); [by apply Forall_nil_2|].
  rewrite calls_bind. cbn [outcome emit snd trace fst].
  apply Forall_cons_2; [by left|].
  eapply Forall_impl; [apply private_zone_walk_calls|].
  intros e Hz. by right.
Qed.

Lemma append_assoc a b c : (a +:+ b) +:+ c = a +:+ (b +:+ c).
Proof.
  induction a as [|x a IH]; [done|].
  change (String x ((a +:+ b) +:+ c) = String x (a +:+ (b +:+ c))). by rewrite IH.
Qed.

Lemma split_trailing_sep c s :
  Py.split c (s +:+ String c EmptyString) = Py.split c s ++ [EmptyString].
Proof.
  induction s as [|a s IH].
  - change (Py.split c (String c EmptyString) = [EmptyString; EmptyString]).
    simpl. by rewrite Ascii.eqb_refl.
  - change (Py.split c (String a (s +:+ String c EmptyString))
            = Py.split c (String a s) ++ [EmptyString]).
    simpl. rewrite IH. destruct (Ascii.eqb a c); [done|].
    pose proof (split_nonempty c s). by destruct (Py.split c s).
Qed.

Lemma join_trailing_empty labels :
  labels <> [] -> Py.join "." (labels ++ [EmptyString]) = Py.join "." labels +:+ ".".
Proof.
  induction labels as [|p rest IH]; [done|]. intros _.
  destruct rest as [|q rest]; [done|].
  change (p +:+ "." +:+ Py.join "." ((q :: rest) ++ [EmptyString])
          = (p +:+ "." +:+ Py.join "." (q :: rest)) +:+ ".").
  rewrite IH by done. by rewrite !append_assoc.
Qed.

Lemma candidates_of_trailing_empty labels candidate :
  candidate ∈ candidates_of (labels ++ [EmptyString]) -> ends_with_two_dots candidate.
Proof.
  induction labels as [|p rest IH]; [by intros ?%elem_of_nil|].
  assert (exists q rest', rest ++ [EmptyString] = q :: rest') as (q & rest' & Hrest).
  { destruct rest; simpl; eauto. }
  change ((p :: rest) ++ [EmptyString]) with (p :: (rest ++ [EmptyString])).
  rewrite Hrest, candidates_of_cons, <- Hrest.
  intros [->|Hin]%elem_of_cons.
  - exists (Py.join "." (p :: rest)).
    change (p :: rest ++ [EmptyString]) with ((p :: rest) ++ [EmptyString]).
    rewrite join_trailing_empty by done. by rewrite append_assoc.
  - by apply IH.
Qed.

(** X7: a name written with a trailing dot never finds a zone, public or
    private, as long as no zone of the catalog has a name ending in two
    dots: every candidate it gives ends in "..", so the zone "corp.internal."
    is not found under "corp.internal.". *)
Theorem trailing_dot_never_matches route53_client vpc_id region zone_name :
  (forall zone, zone ∈ list_hosted_zones route53_client -> ~ ends_with_two_dots (Name zone)) ->
  outcome (get_public_zone_id route53_client (Some (zone_name +:+ "."))) = Ok None
  /\ outcome (get_private_zone_id route53_client vpc_id region (Some (zone_name +:+ ".")))
     = Ok None.
Proof.
  intros Hzones.
  assert (forall zone candidate,
            zone ∈ list_hosted_zones route53_client ->
            candidate ∈ zone_candidates (zone_name +:+ ".") ->
            String.eqb (Name zone) candidate = false) as Hno.
  { intros zone candidate Hz Hc. apply String.eqb_neq. intros Heq.
    apply (Hzones zone Hz). rewrite Heq.
    unfold zone_candidates in Hc.
    change "."%string with (String dot EmptyString) in Hc.
    rewrite split_trailing_sep in Hc. by eapply candidates_of_trailing_empty. }
  rewrite get_public_zone_id_outcome, get_private_zone_id_outcome. split.
  - rewrite first_match_None; [done|]. intros zone candidate Hz Hc.
    unfold public_hit. by rewrite (Hno zone candidate), andb_false_r.
  - destruct (String.eqb _ "{}.compute.internal"); [done|].
    rewrite first_match_None; [done|]. intros zone candidate Hz Hc.
    unfold private_hit. by rewrite (Hno zone candidate), andb_false_r.
Qed.

(** No string that ends in one dot after a letter ends in two dots. *)
Lemma corp_internal_one_dot : ~ ends_with_two_dots "corp.internal.".
Proof.
  intros [p Hp].
  do 14 (destruct p as [|? p]; [discriminate Hp|]; injection Hp as _ Hp).
  destruct p; discriminate Hp.
Qed.

Lemma trailing_dot_never_matches_witness :
  outcome (get_private_zone_id
             (mkRoute53Client
                [mkHostedZone "Z1" "corp.internal." (Some (mkHostedZoneConfig (Some true)))]
                (fun _ => [mkVPC (Some "vpc-1")]) (fun _ _ _ _ _ _ => true))
             "vpc-1" "us-east-1" (Some ("corp.internal" +:+ ".")))
  = Ok None.
Proof.
  eapply proj2. apply trailing_dot_never_matches.
  intros zone Hz. apply list_elem_of_singleton in Hz. subst zone.
  exact corp_internal_one_dot.
Defined.

(** ** Aliases *)

Lemma dict_set_keys_elem {V} (k k' : string) (v : V) d :
  k' ∈ (dict_set k v d).*1 <-> k' = k \/ k' ∈ d.*1.
Proof.
  induction d as [|[k0 v0] d IH]; simpl.
  - rewrite list_elem_of_singleton. split; [by left|]. by intros [?|?%elem_of_nil].
  - destruct (String.eqb k0 k) eqn:E; simpl.
    + apply String.eqb_eq in E as ->. rewrite elem_of_cons. tauto.
    + rewrite !elem_of_cons, IH. tauto.
Qed.

Lemma dict_set_keys_NoDup {V} (k : string) (v : V) d :
  NoDup d.*1 -> NoDup (dict_set k v d).*1.
Proof.
  induction d as [|[k0 v0] d IH]; simpl.
  - intros _. apply NoDup_singleton.
  - intros [Hk0 Hd]%NoDup_cons. destruct (String.eqb k0 k) eqn:E; simpl.
    + by apply NoDup_cons.
    + apply NoDup_cons. split; [|by apply IH].
      rewrite dict_set_keys_elem. intros [->|?]; [|done].
      by rewrite String.eqb_refl in E.
Qed.

Lemma get_aliases_loop route53_client vpc_id region tags aliases_tag alias_type
    default_dns_domain tokens settings :
  exists settings',
    outcome (for_each tokens
               (get_aliases_body route53_client vpc_id region tags aliases_tag alias_type
                  default_dns_domain) settings) = Ok settings'
    /\ (forall k, k ∈ settings'.*1 <-> k ∈ settings.*1 \/ k ∈ tokens)
    /\ (NoDup settings.*1 -> NoDup settings'.*1).
Proof.
  revert settings. induction tokens as [|alias tokens IH]; intros settings.
  - exists settings. repeat split; try done; [by left|].
    by intros [?|?%elem_of_nil].
  - destruct (get_aliases_body_identity route53_client vpc_id region tags aliases_tag
                alias_type default_dns_domain settings alias) as [zone Hbody].
    cbv zeta in Hbody.
    match type of Hbody with _ = Ok ?s1 => destruct (IH s1) as (settings' & Hout & Hk & Hnd) end.
    exists settings'. split; [|split].
    + cbn [for_each]. by erewrite outcome_bind by exact Hbody.
    + intros k. rewrite Hk, dict_set_keys_elem, elem_of_cons. tauto.
    + intros Hs. by apply Hnd, dict_set_keys_NoDup.
Qed.

(** X8: when the aliases tag of the visibility is present, [get_aliases]
    returns (it does not raise), with one entry per distinct alias: the keys
    are the comma-separated tokens of the tag, stripped, without repetition.
    There is always at least one, the empty alias for an empty tag. *)
Theorem get_aliases_keys route53_client vpc_id region (tags : gmap string string)
    aliases_tag alias_type default_dns_domain aliases :
  tags !! (aliases_tag +:+ "/" +:+ alias_type) = Some aliases ->
  exists settings,
    outcome (get_aliases route53_client vpc_id region tags aliases_tag alias_type
               default_dns_domain) = Ok settings
    /\ (forall alias, alias ∈ settings.*1 <-> alias ∈ Py.strip <$> Py.split comma aliases)
    /\ NoDup settings.*1
    /\ settings <> [].
Proof.
  intros Htag. unfold get_aliases. rewrite Htag.
  destruct (get_aliases_loop route53_client vpc_id region tags aliases_tag alias_type
              default_dns_domain (Py.strip <$> Py.split comma aliases) [])
    as (settings & Hout & Hk & Hnd).
  exists settings. split; [done|]. split; [|split].
  - intros alias. rewrite Hk. split; [|by right]. by intros [?%elem_of_nil|?].
  - apply Hnd. apply NoDup_nil_2.
  - intros ->. pose proof (split_nonempty comma aliases) as Hne.
    destruct (Py.split comma aliases) as [|token tokens]; [done|].
    assert (Py.strip token ∈ ([] : list (string * AliasSettings)).*1) as Hin.
    { apply Hk. right. by left. }
    by apply elem_of_nil in Hin.
Qed.

Lemma get_aliases_keys_witness :
  exists settings,
    outcome (get_aliases sample_route53 "vpc-1" "us-east-1"
               {["t/private" := "db, api ,db"]} "t" "private" "corp.internal") = Ok settings
    /\ (forall alias, alias ∈ settings.*1 <-> alias ∈ Py.strip <$> Py.split comma "db, api ,db")
    /\ NoDup settings.*1
    /\ settings <> [].
Proof.
  apply (get_aliases_keys sample_route53 "vpc-1" "us-east-1" {["t/private" := "db, api ,db"]}
           "t" "private" "corp.internal" "db, api ,db").
  vm_compute. reflexivity.
Defined.

(** X9: a zone id given by the alias' own zone_id tag is taken as it is: the
    alias is stored with that zone id and no call is made to Route 53. *)
Theorem alias_zone_id_tag_wins route53_client vpc_id region (tags : gmap string string)
    aliases_tag alias_type default_dns_domain settings alias zone :
  tags !! ((aliases_tag +:+ "/" +:+ alias_type +:+ "/" +:+ alias) +:+ "/zone_id") = Some zone ->
  calls (trace (get_aliases_body route53_client vpc_id region tags aliases_tag alias_type
                  default_dns_domain settings alias)) = []
  /\ exists h d f,
       outcome (get_aliases_body route53_client vpc_id region tags aliases_tag alias_type
                  default_dns_domain settings alias)
       = Ok (dict_set alias (mkAliasSettings h d f (Some zone)) settings).
Proof.
  intros Hzone. unfold get_aliases_body. cbv zeta. rewrite Hzone.
  destruct (tags !! ((aliases_tag +:+ "/" +:+ alias_type +:+ "/" +:+ alias) +:+ "/hostname"))
    as [raw|];
    cbv beta iota delta [mbind M_bind mret M_ret bind ret log emit];
    match goal with
    | |- context [Nat.eqb ?n 1] => destruct (Nat.eqb n 1)
    end;
    (split; [reflexivity|do 3 eexists; reflexivity]).
Qed.

Lemma alias_zone_id_tag_wins_witness :
  calls (trace (get_aliases_body sample_route53 "vpc-1" "us-east-1"
                  {["t/public/www/zone_id" := "Z7"]} "t" "public" "example.org" [] "www")) = []
  /\ exists h d f,
       outcome (get_aliases_body sample_route53 "vpc-1" "us-east-1"
                  {["t/public/www/zone_id" := "Z7"]} "t" "public" "example.org" [] "www")
       = Ok (dict_set "www" (mkAliasSettings h d f (Some "Z7")) []).
Proof.
  apply (alias_zone_id_tag_wins sample_route53 "vpc-1" "us-east-1"
           {["t/public/www/zone_id" := "Z7"]} "t" "public" "example.org" [] "www" "Z7").
  vm_compute. reflexivity.
Defined.

Lemma split_one_label c s : length (Py.split c s) = 1 -> Py.contains c s = false.
Proof.
  induction s as [|a s IH]; simpl; [done|].
  pose proof (split_nonempty c s).
  destruct (Ascii.eqb a c).
  - destruct (Py.split c s); simpl; [done|lia].
  - destruct (Py.split c s); simpl in *; [done|]. intros. by apply IH.
Qed.

Lemma split_head_no_sep c s h t : Py.split c s = h :: t -> Py.contains c h = false.
Proof.
  revert h t. induction s as [|a s IH]; simpl; intros h t.
  - by intros [= <- <-].
  - destruct (Ascii.eqb a c) eqn:E; [by intros [= <- <-]|].
    pose proof (split_nonempty c s).
    destruct (Py.split c s) as [|h' t'] eqn:Es; [done|].
    intros [= <- <-]. simpl. rewrite E. by eapply IH.
Qed.

Lemma resolved_identity_label raw d : Py.contains dot (resolved_identity raw d).1.1 = false.
Proof.
  unfold resolved_identity.
  destruct (Nat.eqb (length (Py.split dot raw)) 1) eqn:E; cbn [fst snd].
  - apply Nat.eqb_eq in E. by apply split_one_label.
  - pose proof (split_nonempty dot raw).
    destruct (Py.split dot raw) as [|h t] eqn:Es; [done|].
    by apply (split_head_no_sep dot raw h t).
Qed.

Lemma resolved_identity_recompose raw d :
  Py.contains dot raw = true ->
  (resolved_identity raw d).1.1 +:+ "." +:+ (resolved_identity raw d).1.2 = raw.
Proof.
  intros Hdot. unfold resolved_identity.
  destruct (Nat.eqb (length (Py.split dot raw)) 1) eqn:E; cbn [fst snd].
  - apply Nat.eqb_eq, split_one_label in E. congruence.
  - pose proof (join_split dot raw) as Hjoin.
    pose proof (split_nonempty dot raw) as Hne.
    destruct (Py.split dot raw) as [|h [|q t]] eqn:Es; [done|discriminate E|].
    exact Hjoin.
Qed.

(** X10: the hostname [get_aliases] stores for an alias never contains a
    dot. It is computed from the alias' hostname tag, or from the alias
    itself: a raw name with a dot is cut after its first label, and hostname
    and dns_domain joined by a dot give the raw name back; a raw name without
    a dot is the hostname, with the default domain. *)
Theorem alias_hostname_is_first_label route53_client vpc_id region (tags : gmap string string)
    aliases_tag alias_type default_dns_domain settings alias :
  exists s,
    outcome (get_aliases_body route53_client vpc_id region tags aliases_tag alias_type
               default_dns_domain settings alias) = Ok (dict_set alias s settings)
    /\ Py.contains dot (hostname s) = false
    /\ forall raw,
         raw = default alias
                 (tags !! ((aliases_tag +:+ "/" +:+ alias_type +:+ "/" +:+ alias)
                           +:+ "/hostname")) ->
         (Py.contains dot raw = true -> hostname s +:+ "." +:+ dns_domain s = raw)
         /\ (Py.contains dot raw = false ->
             hostname s = raw /\ dns_domain s = default_dns_domain).
Proof.
  destruct (get_aliases_body_identity route53_client vpc_id region tags aliases_tag alias_type
              default_dns_domain settings alias) as [zone Hbody].
  cbv zeta in Hbody. eexists. split; [exact Hbody|]. cbn [hostname dns_domain].
  split; [apply resolved_identity_label|].
  intros raw ->. split.
  - apply resolved_identity_recompose.
  - intros Hbare. by rewrite resolved_identity_bare.
Qed.

Lemma alias_hostname_is_first_label_witness :
  exists s,
    outcome (get_aliases_body sample_route53 "vpc-1" "us-east-1"
               {["t/private/api/hostname" := "api.corp.internal"]} "t" "private"
               "example.org" [] "api") = Ok (dict_set "api" s [])
    /\ Py.contains dot (hostname s) = false
    /\ hostname s +:+ "." +:+ dns_domain s = "api.corp.internal".
Proof.
  destruct (alias_hostname_is_first_label sample_route53 "vpc-1" "us-east-1"
              {["t/private/api/hostname" := "api.corp.internal"]} "t" "private"
              "example.org" [] "api") as (s & Hout & Hlabel & Hraw).
  exists s. split; [exact Hout|]. split; [exact Hlabel|].
  apply (Hraw "api.corp.internal"); [vm_compute|]; reflexivity.
Defined.

(** ** Registration *)

Lemma calls_emit {B} e (f : unit -> M B) :
  is_log e = false -> calls (trace (emit e ≫= f)) = e :: calls (trace (f tt)).
Proof. intros He. rewrite calls_bind. cbn [emit trace outcome fst snd calls List.filter]. by rewrite He. Qed.

(** X11: when the instance data is unusable (not exactly one reservation
    with one instance, or no private IP, or no VPC id), [register_host]
    raises an exception after the [describe_instances] call and calls
    nothing else. *)
Theorem register_host_fatal_checks environ route53_client ec2_client region instance_id :
  unusable_instance ec2_client instance_id ->
  (exists msg, outcome (register_host environ route53_client ec2_client region instance_id)
               = Raise (Exception msg))
  /\ calls (trace (register_host environ route53_client ec2_client region instance_id))
     = [DescribeInstances instance_id].
Proof.
  unfold register_host.
  intros [Hlen | reservation -> Hlen | reservation instance -> -> Hip
         | reservation instance -> -> Hvpc]; cbv zeta.
  - destruct (describe_instances ec2_client instance_id) as [|r [|r' rs]];
      first [done | split; [by eexists|done]].
  - destruct (Instances reservation) as [|i [|i' rest]];
      first [done | split; [by eexists|done]].
  - rewrite Hip. destruct (String.eqb (default "" (PublicIpAddress instance)) "");
      (split; [by eexists|done]).
  - rewrite Hvpc.
    destruct (String.eqb (default "" (PrivateIpAddress instance)) "");
      destruct (String.eqb (default "" (PublicIpAddress instance)) "");
      (split; [by eexists|done]).
Qed.

Lemma register_host_fatal_checks_witness :
  (exists msg,
     outcome (register_host ∅ sample_route53
                (sample_ec2 (mkInstance (Some "3.3.3.3") None (Some "vpc-1") []))
                "us-east-1" "i-1")
     = Raise (Exception msg))
  /\ calls (trace (register_host ∅ sample_route53
                     (sample_ec2 (mkInstance (Some "3.3.3.3") None (Some "vpc-1") []))
                     "us-east-1" "i-1"))
     = [DescribeInstances "i-1"].
Proof.
  apply register_host_fatal_checks.
  by apply (no_private_ip _ _ (mkReservation [mkInstance (Some "3.3.3.3") None (Some "vpc-1") []])
              (mkInstance (Some "3.3.3.3") None (Some "vpc-1") [])).
Defined.

Lemma route53_calls_bind {A B} (m : M A) (f : A -> M B) :
  route53_calls (trace (m ≫= f))
  = route53_calls (trace m) ++ match outcome m with
                               | Ok a => route53_calls (trace (f a))
                               | Raise _ => []
                               end.
Proof.
  rewrite trace_bind. unfold route53_calls. rewrite List.filter_app.
  by destruct (outcome m).
Qed.

Lemma route53_calls_log {B} lvl template args (f : unit -> M B) :
  route53_calls (trace (log lvl template args ≫= f)) = route53_calls (trace (f tt)).
Proof. by rewrite route53_calls_bind. Qed.

Lemma get_hostname_route53_calls environ tags :
  route53_calls (trace (get_hostname environ tags)) = [].
Proof. unfold get_hostname. by destruct (tags !! default _ _). Qed.

Lemma get_dns_domain_route53_calls environ ec2_client vpc_id region tags :
  route53_calls (trace (get_dns_domain environ ec2_client vpc_id region tags)) = [].
Proof.
  unfold get_dns_domain. cbv zeta. rewrite !route53_calls_log.
  destruct (tags !! default _ _); [done|].
  rewrite route53_calls_bind.
  assert (route53_calls (trace (get_dhcp_options_domain ec2_client vpc_id)) = []) as ->.
  { unfold get_dhcp_options_domain.
    destruct (describe_vpcs ec2_client vpc_id) as [|vpc [|vpc' vpcs]]; [done| |done].
    destruct (DhcpOptionsId vpc) as [id|]; [|done].
    destruct (describe_dhcp_options ec2_client id) as [|options [|o os]]; [done| |done].
    by destruct (domain_name_config (DhcpConfigurations options)). }
  by destruct (outcome _).
Qed.

(** X12: when the private IP of an instance with a hostname has fewer than
    four dot-separated parts, [register_host] raises IndexError at the PTR
    derivation, before any call to Route 53. *)
Theorem register_host_short_private_ip environ route53_client ec2_client region instance_id
    reservation instance h :
  describe_instances ec2_client instance_id = [reservation] ->
  Instances reservation = [instance] ->
  default "" (PrivateIpAddress instance) <> "" ->
  length (Py.split dot (default "" (PrivateIpAddress instance))) < 4 ->
  default "" (VpcId instance) <> "" ->
  outcome (get_hostname environ (tags_to_dict (Tags instance))) = Ok (Some h) ->
  outcome (register_host environ route53_client ec2_client region instance_id)
  = Raise (IndexError "list index out of range")
  /\ route53_calls (trace (register_host environ route53_client ec2_client region instance_id))
     = [].
Proof.
  intros Hres Hinst Hip%String.eqb_neq Hlen Hvpc%String.eqb_neq Hhost.
  unfold register_host. rewrite Hres, Hinst. cbv zeta. rewrite Hip, Hvpc.
  set (tags := tags_to_dict (Tags instance)) in *.
  set (octets := Py.split dot (default "" (PrivateIpAddress instance))) in *.
  assert (octets !! 3 = None) as Hoct by (apply lookup_ge_None; lia).
  assert (exists x, outcome
            (if Nat.eqb (length (Py.split dot h)) 1
             then dns_domain ← get_dns_domain environ ec2_client
                                 (default "" (VpcId instance)) region tags;
                  mret (h, dns_domain, h +:+ "." +:+ dns_domain)
             else mret (default "" (head (Py.split dot h)),
                        Py.join "." (tail (Py.split dot h)),
                        default "" (head (Py.split dot h)))) = Ok x) as [[[h' dom] name] Hident].
  { destruct (Nat.eqb _ 1); [|by eexists].
    destruct (get_dns_domain_returns environ ec2_client (default "" (VpcId instance)) region
                tags) as [dom Hdom].
    eexists. by erewrite outcome_bind by exact Hdom. }
  assert (route53_calls (trace
            (if Nat.eqb (length (Py.split dot h)) 1
             then dns_domain ← get_dns_domain environ ec2_client
                                 (default "" (VpcId instance)) region tags;
                  mret (h, dns_domain, h +:+ "." +:+ dns_domain)
             else mret (default "" (head (Py.split dot h)),
                        Py.join "." (tail (Py.split dot h)),
                        default "" (head (Py.split dot h))))) = []) as Hquiet.
  { destruct (Nat.eqb _ 1); [|done].
    rewrite route53_calls_bind, get_dns_domain_route53_calls.
    by destruct (outcome (get_dns_domain environ ec2_client (default "" (VpcId instance))
                            region tags)). }
  assert (exists public_ip,
            (if String.eqb (default "" (PublicIpAddress instance)) "" then
               log INFO "host does not have a public IP" [];;
               mret None
             else
               log INFO "public_ip: {}" [AStr (default "" (PublicIpAddress instance))];;
               mret (Some (default "" (PublicIpAddress instance))))
            = ([Log INFO (if String.eqb (default "" (PublicIpAddress instance)) ""
                          then "host does not have a public IP" else "public_ip: {}")
                  (if String.eqb (default "" (PublicIpAddress instance)) ""
                   then [] else [AStr (default "" (PublicIpAddress instance))])],
               Ok public_ip)) as [public_ip Hpub].
  { destruct (String.eqb (default "" (PublicIpAddress instance)) ""); by eexists. }
  rewrite Hpub. split.
  - do 2 (erewrite outcome_bind by reflexivity).
    erewrite outcome_bind by reflexivity.
    do 2 (erewrite outcome_bind by reflexivity).
    erewrite outcome_bind by exact Hhost. cbv beta iota.
    erewrite outcome_bind by exact Hident. cbv beta iota.
    do 3 (erewrite outcome_bind by reflexivity).
    apply outcome_bind_raise. unfold index. by rewrite Hoct.
  - rewrite route53_calls_log. cbv beta.
    rewrite route53_calls_bind. cbn [emit trace outcome fst snd route53_calls List.filter app].
    rewrite route53_calls_bind. cbn [trace outcome fst snd route53_calls List.filter app].
    rewrite !route53_calls_log. cbv beta.
    rewrite route53_calls_bind, get_hostname_route53_calls, Hhost. cbn [app].
    rewrite route53_calls_bind, Hquiet, Hident. cbn [app].
    rewrite !route53_calls_log. cbv beta.
    assert (index octets 3 = ([], Raise (IndexError "list index out of range"))) as Hidx.
    { unfold index. by rewrite Hoct. }
    by rewrite route53_calls_bind, Hidx.
Qed.

Lemma register_host_short_private_ip_witness :
  outcome (register_host ∅ sample_route53
             (sample_ec2 (mkInstance None (Some "fe80::1") (Some "vpc-1")
                            [mkTag (Some "Name") (Some "web1") None]))
             "us-east-1" "i-1")
  = Raise (IndexError "list index out of range")
  /\ route53_calls (trace (register_host ∅ sample_route53
                             (sample_ec2 (mkInstance None (Some "fe80::1") (Some "vpc-1")
                                            [mkTag (Some "Name") (Some "web1") None]))
                             "us-east-1" "i-1"))
     = [].
Proof.
  apply (register_host_short_private_ip ∅ sample_route53 _ "us-east-1" "i-1"
           (mkReservation [mkInstance None (Some "fe80::1") (Some "vpc-1")
                             [mkTag (Some "Name") (Some "web1") None]])
           (mkInstance None (Some "fe80::1") (Some "vpc-1")
              [mkTag (Some "Name") (Some "web1") None]) "web1");
    first [reflexivity | discriminate | (vm_compute; lia)].
Defined.

Lemma outcome_bind_match {A B} (m : M A) (f : A -> M B) :
  outcome (m ≫= f) = match outcome m with
                     | Ok a => outcome (f a)
                     | Raise e => Raise e
                     end.
Proof.
  destruct m as [t [a|e]]; unfold_M; unfold bind, outcome; simpl; [|done].
  by destruct (f a).
Qed.

Lemma agree_refl {A} (m : M A) : agree m m.
Proof. done. Qed.

Lemma agree_bind {A B} (m1 m2 : M A) (f1 f2 : A -> M B) :
  agree m1 m2 -> (forall a, agree (f1 a) (f2 a)) -> agree (m1 ≫= f1) (m2 ≫= f2).
Proof.
  intros [Ho Hc] Hf. split.
  - rewrite !outcome_bind_match, Ho. destruct (outcome m2) as [a|e]; [apply Hf|done].
  - rewrite !calls_bind, Hc, Ho. destruct (outcome m2) as [a|e]; [|done].
    f_equal. apply Hf.
Qed.

Lemma agree_for_each {A S} (xs : list A) (body1 body2 : S -> A -> M S) acc :
  (forall acc x, agree (body1 acc x) (body2 acc x)) ->
  agree (for_each xs body1 acc) (for_each xs body2 acc).
Proof.
  intros Hbody. revert acc. induction xs as [|x xs IH]; intros acc; [done|].
  cbn [for_each]. apply agree_bind; [apply Hbody|apply IH].
Qed.

Lemma private_zone_scan_change route53_client change vpc_id check_zone hosted_zones :
  private_zone_scan (with_change_results route53_client change) vpc_id check_zone hosted_zones
  = private_zone_scan route53_client vpc_id check_zone hosted_zones.
Proof.
  induction hosted_zones as [|zone rest IH]; [done|].
  cbn [private_zone_scan]. by rewrite IH.
Qed.

Lemma private_zone_walk_change route53_client change vpc_id hosted_zones zone_parts :
  private_zone_walk (with_change_results route53_client change) vpc_id hosted_zones zone_parts
  = private_zone_walk route53_client vpc_id hosted_zones zone_parts.
Proof.
  induction zone_parts as [|p rest IH]; [done|].
  destruct rest as [|q rest]; [done|].
  by rewrite !private_zone_walk_cons, private_zone_scan_change, IH.
Qed.

Lemma get_private_zone_id_change route53_client change vpc_id region zone_name :
  get_private_zone_id (with_change_results route53_client change) vpc_id region zone_name
  = get_private_zone_id route53_client vpc_id region zone_name.
Proof.
  unfold get_private_zone_id. destruct zone_name as [zone_name|]; [|done].
  by rewrite private_zone_walk_change.
Qed.

Lemma get_public_zone_id_change route53_client change zone_name :
  get_public_zone_id (with_change_results route53_client change) zone_name
  = get_public_zone_id route53_client zone_name.
Proof. done. Qed.

Lemma agree_change_record action route53_client change zone record_type record_name
    record_data :
  agree (change_record action (with_change_results route53_client change) zone record_type
           record_name record_data)
    (change_record action route53_client zone record_type record_name record_data).
Proof.
  unfold change_record. cbn [with_change_results change_resource_record_sets].
  by destruct (change _ _ _ _ _ _), (change_resource_record_sets route53_client _ _ _ _ _ _).
Qed.

(** Settle that two runs of the same shape agree, part by part. *)
Ltac agree_same :=
  lazymatch goal with
  | |- agree ?m1 ?m2 => constr_eq m1 m2; apply agree_refl
  end.

Ltac agree_step :=
  first
    [ agree_same
    | rewrite get_private_zone_id_change; agree_same
    | rewrite get_public_zone_id_change; agree_same
    | apply agree_change_record
    | apply agree_bind; [|intros ?]
    | match goal with
      | |- agree (match ?x with _ => _ end) _ => destruct x
      | |- agree (if ?b then _ else _) _ => destruct b
      end ].

Lemma agree_get_aliases route53_client change vpc_id region tags aliases_tag alias_type
    default_dns_domain :
  agree (get_aliases (with_change_results route53_client change) vpc_id region tags
           aliases_tag alias_type default_dns_domain)
    (get_aliases route53_client vpc_id region tags aliases_tag alias_type default_dns_domain).
Proof.
  unfold get_aliases. destruct (tags !! _); [|done].
  apply agree_for_each. intros settings alias.
  unfold get_aliases_body. cbv zeta. repeat agree_step.
Qed.

Lemma agree_register_aliases route53_client change visibility ip aliases records :
  agree (for_each aliases (register_alias (with_change_results route53_client change)
                             visibility ip) records)
    (for_each aliases (register_alias route53_client visibility ip) records).
Proof.
  apply agree_for_each. intros acc [alias settings].
  unfold register_alias. repeat agree_step.
Qed.

(** X13: registration is best effort: whether the record changes succeed or
    fail at Route 53, [register_host] ends the same way and makes the same
    calls, so a failed change never keeps the later ones from being
    submitted. *)
Theorem register_host_best_effort environ route53_client ec2_client region instance_id change :
  outcome (register_host environ (with_change_results route53_client change) ec2_client
             region instance_id)
  = outcome (register_host environ route53_client ec2_client region instance_id)
  /\ calls (trace (register_host environ (with_change_results route53_client change)
                     ec2_client region instance_id))
     = calls (trace (register_host environ route53_client ec2_client region instance_id)).
Proof.
  change (agree (register_host environ (with_change_results route53_client change)
                   ec2_client region instance_id)
            (register_host environ route53_client ec2_client region instance_id)).
  unfold register_host. cbv zeta.
  repeat first [ apply agree_get_aliases | apply agree_register_aliases | agree_step ].
Qed.

(** ** The handler *)

Lemma event_fields_Some event account region instance_id state :
  event_fields event = Some (account, region, instance_id, state) ->
  event = mkEvent (Some account) (Some region)
            (Some (mkDetail (Some instance_id) (Some state))).
Proof.
  destruct event as [[a|] [r|] [[[i|] [s|]]|]]; unfold event_fields; simpl; try done.
  by intros [= -> -> -> ->].
Qed.

Lemma handler_calls_app t1 t2 : handler_calls (t1 ++ t2) = handler_calls t1 ++ handler_calls t2.
Proof. apply List.filter_app. Qed.

Lemma handler_calls_helper t : handler_calls (Helper <$> t) = Helper <$> calls t.
Proof.
  unfold handler_calls, calls. induction t as [|e t IH]; [done|].
  simpl. destruct (is_log e); simpl; [exact IH|f_equal; exact IH].
Qed.

Lemma persisted_app t1 t2 : persisted (t1 ++ t2) = persisted t1 ++ persisted t2.
Proof. apply omap_app. Qed.

Lemma persisted_helper t : persisted (Helper <$> t) = [].
Proof. induction t as [|e t IH]; [done|]. exact IH. Qed.

Lemma last_logged_snoc t lvl template args :
  last_logged (t ++ [Helper (Log lvl template args)]) = Some template.
Proof. unfold last_logged. rewrite omap_app. cbn [omap list_omap]. apply last_snoc. Qed.

(** Reduce a handler run on an event that has all its fields. *)
Ltac handler_run :=
  unfold lambda_handler; simpl;
  repeat first
    [ rewrite bool_decide_eq_true_2 by assumption
    | rewrite bool_decide_eq_false_2 by assumption ];
  simpl.

(** X14: for a state other than running, shutting-down and stopping the
    handler returns 0 at once: it calls no client, and the last thing it
    logs is the finished message. *)
Theorem lambda_handler_ignores_state environ org_client sts_client dynamo_client boto3_ec2_client
    route53_client event account region instance_id state :
  event_fields event = Some (account, region, instance_id, state) ->
  ~ active_state state ->
  h_outcome (lambda_handler environ org_client sts_client dynamo_client boto3_ec2_client route53_client event)
  = Ok 0%Z
  /\ handler_calls (h_trace (lambda_handler environ org_client sts_client dynamo_client boto3_ec2_client
                               route53_client event)) = []
  /\ last_logged (h_trace (lambda_handler environ org_client sts_client dynamo_client boto3_ec2_client
                             route53_client event)) = Some finished_message.
Proof.
  intros ->%event_fields_Some Hstate. unfold active_state in Hstate.
  handler_run. done.
Qed.

Lemma lambda_handler_ignores_state_witness :
  h_outcome (lambda_handler ∅ sample_org sample_sts sample_dynamo (fun _ _ => sample_ec2 web1_instance)
               sample_route53 (state_change "terminated"))
  = Ok 0%Z
  /\ handler_calls (h_trace (lambda_handler ∅ sample_org sample_sts sample_dynamo
                               (fun _ _ => sample_ec2 web1_instance) sample_route53
                               (state_change "terminated"))) = []
  /\ last_logged (h_trace (lambda_handler ∅ sample_org sample_sts sample_dynamo
                             (fun _ _ => sample_ec2 web1_instance) sample_route53
                             (state_change "terminated"))) = Some finished_message.
Proof.
  apply (lambda_handler_ignores_state ∅ sample_org sample_sts sample_dynamo _ sample_route53
           (state_change "terminated") "111122223333" "us-east-1" "i-1" "terminated").
  - reflexivity.
  - unfold active_state. intros Hin. apply list_elem_of_In in Hin. simpl in Hin.
    destruct Hin as [Hin|[Hin|[Hin|Hin]]]; first [discriminate Hin | exact Hin].
Defined.

(** X15: when the event lacks the account, the region, the detail, the
    instance id or the state, the handler raises the exception of
    [get_event_value] that names the first field missing, in the order it
    reads them, before it calls any client. *)
Theorem lambda_handler_missing_field environ org_client sts_client dynamo_client
    boto3_ec2_client route53_client event :
  event_fields event = None ->
  exists key,
    first_missing_field event = Some key
    /\ h_outcome (lambda_handler environ org_client sts_client dynamo_client boto3_ec2_client
                    route53_client event)
       = Raise (Exception ("'" +:+ key +:+ "' is missing from the event"))
    /\ handler_calls (h_trace (lambda_handler environ org_client sts_client dynamo_client
                                 boto3_ec2_client route53_client event)) = [].
Proof.
  destruct event as [[a|] [r|] [[[i|] [s|]]|]]; unfold event_fields; simpl; try done;
    intros _; eexists; (split; [reflexivity|]); split; reflexivity.
Qed.

Lemma lambda_handler_missing_field_witness :
  exists key,
    first_missing_field (mkEvent (Some "111122223333") (Some "us-east-1")
                           (Some (mkDetail None (Some "running")))) = Some key
    /\ h_outcome (lambda_handler ∅ sample_org sample_sts sample_dynamo
                    (fun _ _ => sample_ec2 web1_instance) sample_route53
                    (mkEvent (Some "111122223333") (Some "us-east-1")
                       (Some (mkDetail None (Some "running")))))
       = Raise (Exception ("'" +:+ key +:+ "' is missing from the event"))
    /\ handler_calls (h_trace (lambda_handler ∅ sample_org sample_sts sample_dynamo
                                 (fun _ _ => sample_ec2 web1_instance) sample_route53
                                 (mkEvent (Some "111122223333") (Some "us-east-1")
                                    (Some (mkDetail None (Some "running")))))) = [].
Proof. apply lambda_handler_missing_field. reflexivity. Defined.

(** X16: for an account whose state tag is absent, or holds a value that is
    not one of the enabled values, the handler returns 0 after reading the
    account and its tags: it assumes no role and calls neither EC2 nor
    Route 53. *)
Theorem lambda_handler_skips_disabled_account environ org_client sts_client dynamo_client boto3_ec2_client
    route53_client event account region instance_id state :
  event_fields event = Some (account, region, instance_id, state) ->
  active_state state ->
  ~ account_enabled environ org_client account ->
  h_outcome (lambda_handler environ org_client sts_client dynamo_client boto3_ec2_client route53_client event)
  = Ok 0%Z
  /\ handler_calls (h_trace (lambda_handler environ org_client sts_client dynamo_client boto3_ec2_client
                               route53_client event))
     = [DescribeAccount account; ListTagsForResource account].
Proof.
  intros ->%event_fields_Some Hstate Hdisabled.
  unfold active_state in Hstate. unfold account_enabled, account_tags in Hdisabled.
  handler_run.
  destruct (tags_to_dict (list_tags_for_resource org_client account)
              !! get_setting environ account_state_tag) as [value|] eqn:Htag; [|done].
  rewrite bool_decide_eq_false_2; [done|].
  intros Hin. apply Hdisabled. by exists value.
Qed.

Lemma lambda_handler_skips_disabled_account_witness :
  h_outcome (lambda_handler ∅ untagged_org sample_sts sample_dynamo (fun _ _ => sample_ec2 web1_instance)
               sample_route53 (state_change "running"))
  = Ok 0%Z
  /\ handler_calls (h_trace (lambda_handler ∅ untagged_org sample_sts sample_dynamo
                               (fun _ _ => sample_ec2 web1_instance) sample_route53
                               (state_change "running")))
     = [DescribeAccount "111122223333"; ListTagsForResource "111122223333"].
Proof.
  apply (lambda_handler_skips_disabled_account ∅ untagged_org sample_sts sample_dynamo _ sample_route53
           (state_change "running") "111122223333" "us-east-1" "i-1" "running").
  - reflexivity.
  - unfold active_state. by left.
  - intros (value & Hv & _). vm_compute in Hv. discriminate Hv.
Defined.

(** Reduce a handler run for an enabled account up to the registration. *)
Ltac handler_enabled_run Henabled :=
  let value := fresh "value" in
  let Hvalue := fresh "Hvalue" in
  let Hin := fresh "Hin" in
  destruct Henabled as (value & Hvalue & Hin);
  unfold account_tags in Hvalue;
  handler_run; rewrite Hvalue; simpl;
  rewrite bool_decide_eq_true_2 by assumption; simpl.

(** X17: for an enabled account and the states shutting-down and stopping
    the handler assumes the role and stops there: [unregister_host] does
    nothing, so no call goes to EC2, Route 53 or the table, and no record is
    removed. The role is the account's role tag or the default role, under an
    ARN that does not hold the account id. *)
Theorem lambda_handler_unregisters_nothing environ org_client sts_client dynamo_client boto3_ec2_client
    route53_client event account region instance_id state :
  event_fields event = Some (account, region, instance_id, state) ->
  state = "shutting-down" \/ state = "stopping" ->
  account_enabled environ org_client account ->
  h_outcome (lambda_handler environ org_client sts_client dynamo_client boto3_ec2_client route53_client event)
  = Ok 0%Z
  /\ handler_calls (h_trace (lambda_handler environ org_client sts_client dynamo_client boto3_ec2_client
                               route53_client event))
     = [DescribeAccount account; ListTagsForResource account;
        AssumeRole (role_arn_of environ org_client account) "awsaccount_session"].
Proof.
  intros ->%event_fields_Some Hstate Henabled.
  assert (state ∈ ["running"; "shutting-down"; "stopping"]) as Hactive.
  { destruct Hstate as [-> | ->]; [right; by left|right; right; by left]. }
  assert (String.eqb state "running" = false) as Hrun.
  { by destruct Hstate as [-> | ->]. }
  handler_enabled_run Henabled. rewrite Hrun. done.
Qed.

Lemma lambda_handler_unregisters_nothing_witness :
  h_outcome (lambda_handler ∅ sample_org sample_sts sample_dynamo (fun _ _ => sample_ec2 web1_instance)
               sample_route53 (state_change "stopping"))
  = Ok 0%Z
  /\ handler_calls (h_trace (lambda_handler ∅ sample_org sample_sts sample_dynamo
                               (fun _ _ => sample_ec2 web1_instance) sample_route53
                               (state_change "stopping")))
     = [DescribeAccount "111122223333"; ListTagsForResource "111122223333";
        AssumeRole (role_arn_of ∅ sample_org "111122223333") "awsaccount_session"].
Proof.
  apply (lambda_handler_unregisters_nothing ∅ sample_org sample_sts sample_dynamo _ sample_route53
           (state_change "stopping") "111122223333" "us-east-1" "i-1" "stopping").
  - reflexivity.
  - right. reflexivity.
  - exists "enabled". split; [vm_compute; reflexivity|]. vm_compute. left.
Defined.

(** X18: for an enabled account and the state running, the handler assumes
    the account's role, runs [register_host] with an EC2 client made for the
    event's region from the role's credentials, and then stores with
    [put_item], under the instance id, exactly what [register_host]
    returned; when [register_host] raises, nothing is stored. *)
Theorem lambda_handler_running environ org_client sts_client dynamo_client boto3_ec2_client
    route53_client event account region instance_id :
  event_fields event = Some (account, region, instance_id, "running") ->
  account_enabled environ org_client account ->
  handler_calls (h_trace (lambda_handler environ org_client sts_client dynamo_client boto3_ec2_client
                               route53_client event))
  = [DescribeAccount account; ListTagsForResource account;
     AssumeRole (role_arn_of environ org_client account) "awsaccount_session"]
    ++ (Helper <$> calls (trace (register_host environ route53_client
                                   (boto3_ec2_client region
                                      (assume_role sts_client
                                         (role_arn_of environ org_client account)
                                         "awsaccount_session"))
                                   region instance_id)))
    ++ match outcome (register_host environ route53_client
                        (boto3_ec2_client region
                           (assume_role sts_client (role_arn_of environ org_client account)
                              "awsaccount_session"))
                        region instance_id) with
       | Ok records => [PutItem (get_setting environ dynamo_table_name) instance_id records]
       | Raise _ => []
       end.
Proof.
  intros ->%event_fields_Some Henabled.
  assert ("running" ∈ ["running"; "shutting-down"; "stopping"]) as Hactive by (by left).
  unfold role_arn_of, iam_role_of, account_tags.
  handler_enabled_run Henabled.
  destruct (register_host _ _ _ _ _) as [t [v|e]]; simpl;
    [destruct (put_item dynamo_client _ _ v); simpl|];
    rewrite ?app_nil_r, !handler_calls_app, handler_calls_helper; simpl;
    by rewrite ?app_nil_r.
Qed.

(** X19: the registration runs under try/finally: for an enabled account and
    the state running, the last thing the handler logs is the finished
    message whether [register_host] and [put_item] return or raise. The
    handler returns 0 only when both return; it raises the exception of
    [register_host], or else the one of [put_item]. *)
Theorem lambda_handler_finally environ org_client sts_client dynamo_client boto3_ec2_client
    route53_client event account region instance_id :
  event_fields event = Some (account, region, instance_id, "running") ->
  account_enabled environ org_client account ->
  last_logged (h_trace (lambda_handler environ org_client sts_client dynamo_client
                          boto3_ec2_client route53_client event))
  = Some finished_message
  /\ h_outcome (lambda_handler environ org_client sts_client dynamo_client boto3_ec2_client
                  route53_client event)
     = match outcome (register_host environ route53_client
                        (boto3_ec2_client region
                           (assume_role sts_client (role_arn_of environ org_client account)
                              "awsaccount_session"))
                        region instance_id) with
       | Ok records =>
           match put_item dynamo_client (get_setting environ dynamo_table_name) instance_id
                   records with
           | None => Ok 0%Z
           | Some e => Raise e
           end
       | Raise e => Raise e
       end.
Proof.
  intros ->%event_fields_Some Henabled.
  assert ("running" ∈ ["running"; "shutting-down"; "stopping"]) as Hactive by (by left).
  unfold role_arn_of, iam_role_of, account_tags.
  handler_enabled_run Henabled.
  destruct (register_host _ _ _ _ _) as [t [v|e]]; simpl;
    [destruct (put_item dynamo_client _ _ v); simpl|];
    (split; [|done]); rewrite ?app_nil_r, !app_comm_cons; apply last_logged_snoc.
Qed.

Lemma lambda_handler_running_witness :
  handler_calls (h_trace (lambda_handler ∅ sample_org sample_sts sample_dynamo
                            (fun _ _ => sample_ec2 aliased_instance) sample_route53
                            (state_change "running")))
  = [DescribeAccount "111122223333"; ListTagsForResource "111122223333";
     AssumeRole (role_arn_of ∅ sample_org "111122223333") "awsaccount_session"]
    ++ (Helper <$> calls (trace (register_host ∅ sample_route53 (sample_ec2 aliased_instance)
                                   "us-east-1" "i-1")))
    ++ match outcome (register_host ∅ sample_route53 (sample_ec2 aliased_instance)
                        "us-east-1" "i-1") with
       | Ok records => [PutItem (get_setting ∅ dynamo_table_name) "i-1" records]
       | Raise _ => []
       end.
Proof.
  apply (lambda_handler_running ∅ sample_org sample_sts sample_dynamo (fun _ _ => sample_ec2 aliased_instance)
           sample_route53 (state_change "running") "111122223333" "us-east-1" "i-1").
  - reflexivity.
  - exists "enabled". split; [vm_compute; reflexivity|]. vm_compute. left.
Defined.

Lemma lambda_handler_finally_witness :
  last_logged (h_trace (lambda_handler ∅ sample_org sample_sts sample_dynamo
                          (fun _ _ => sample_ec2 aliased_instance) sample_route53
                          (state_change "running")))
  = Some finished_message
  /\ h_outcome (lambda_handler ∅ sample_org sample_sts sample_dynamo
                  (fun _ _ => sample_ec2 aliased_instance) sample_route53
                  (state_change "running"))
     = Raise (Exception "Parameter validation failed").
Proof.
  destruct (lambda_handler_finally ∅ sample_org sample_sts sample_dynamo
              (fun _ _ => sample_ec2 aliased_instance) sample_route53
              (state_change "running") "111122223333" "us-east-1" "i-1") as [Hlast Hout].
  - reflexivity.
  - exists "enabled". split; [vm_compute; reflexivity|]. vm_compute. left.
  - split; [exact Hlast|]. rewrite Hout. vm_compute. reflexivity.
Defined.

(** X20: whatever the event, the account and the instance, the handler never
    stores a non-empty list of records: the only list [register_host]
    returns is the empty one. *)
Theorem lambda_handler_never_stores_records environ org_client sts_client dynamo_client boto3_ec2_client
    route53_client event records :
  RList records ∈ persisted (h_trace (lambda_handler environ org_client sts_client dynamo_client
                                        boto3_ec2_client route53_client event)) ->
  records = [].
Proof.
  destruct event as [[account|] [region|] [[[instance_id|] [state|]]|]];
    try (simpl; by intros ?%elem_of_nil).
  destruct (decide (state ∈ ["running"; "shutting-down"; "stopping"])) as [Hactive|Hactive];
    [|handler_run; by intros ?%elem_of_nil].
  handler_run.
  destruct (tags_to_dict (list_tags_for_resource org_client account)
              !! get_setting environ account_state_tag) as [value|];
    [|simpl; by intros ?%elem_of_nil].
  destruct (decide (value ∈ Py.strip <$> Py.split ":"
                              (get_setting environ account_enabled_values))) as [Hin|Hin];
    [rewrite bool_decide_eq_true_2 by done|rewrite bool_decide_eq_false_2 by done]; simpl;
    [|by intros ?%elem_of_nil].
  destruct (String.eqb state "running"); [|simpl; by intros ?%elem_of_nil].
  destruct (register_host _ _ _ _ _) as [t [v|e]] eqn:Hrun; simpl.
  - destruct (put_item dynamo_client _ _ v); simpl;
      rewrite ?app_nil_r, !persisted_app, persisted_helper; simpl;
      intros Heq%list_elem_of_singleton; subst v;
      eapply register_host_returns_no_records; by rewrite Hrun.
  - rewrite !persisted_app, persisted_helper. simpl. by intros ?%elem_of_nil.
Qed.

Lemma lambda_handler_never_stores_records_witness :
  RList [] ∈ persisted (h_trace (lambda_handler ∅ sample_org sample_sts sample_dynamo
                                   (fun _ _ => sample_ec2 untagged_instance) sample_route53
                                   (state_change "running")))
  /\ ([] : list DnsRecord) = [].
Proof.
  assert (RList [] ∈ persisted (h_trace (lambda_handler ∅ sample_org sample_sts sample_dynamo
                                           (fun _ _ => sample_ec2 untagged_instance)
                                           sample_route53 (state_change "running")))) as Hin.
  { vm_compute. left. }
  split; [exact Hin|].
  exact (lambda_handler_never_stores_records _ _ _ _ _ _ _ _ Hin).
Defined.

(** ** Registration, continued *)

Lemma Forall_trace_bind {A B} (P : event -> Prop) (m : M A) (f : A -> M B) :
  Forall P (trace m) -> (forall a, Forall P (trace (f a))) -> Forall P (trace (m ≫= f)).
Proof.
  intros Hm Hf. rewrite trace_bind. apply Forall_app. split; [done|].
  destruct (outcome m); [apply Hf|apply Forall_nil_2].
Qed.

Lemma Forall_trace_for_each {A S} (P : event -> Prop) (xs : list A) (body : S -> A -> M S) acc :
  (forall acc x, Forall P (trace (body acc x))) -> Forall P (trace (for_each xs body acc)).
Proof.
  intros Hbody. revert acc. induction xs as [|x xs IH]; intros acc; [apply Forall_nil_2|].
  cbn [for_each]. apply Forall_trace_bind; [apply Hbody|apply IH].
Qed.

Lemma no_change_well_formed t : Forall no_change t -> Forall well_formed_change t.
Proof. intros Ht. eapply Forall_impl; [exact Ht|]. by intros []. Qed.

(** Go through a run, part by part, for a property of all its events. *)
Ltac trace_step :=
  first
    [ apply Forall_nil_2
    | apply Forall_cons_2; [done|]
    | apply Forall_trace_bind; [|intros ?]
    | match goal with
      | |- Forall _ (trace (match ?x with _ => _ end)) => destruct x
      | |- Forall _ (trace (if ?b then _ else _)) => destruct b
      end ].

Lemma private_zone_scan_no_change route53_client vpc_id check_zone hosted_zones :
  Forall no_change (trace (private_zone_scan route53_client vpc_id check_zone hosted_zones)).
Proof.
  induction hosted_zones as [|zone rest IH]; [apply Forall_nil_2|].
  cbn [private_zone_scan]. repeat first [exact IH | trace_step].
Qed.

Lemma private_zone_walk_no_change route53_client vpc_id hosted_zones zone_parts :
  Forall no_change (trace (private_zone_walk route53_client vpc_id hosted_zones zone_parts)).
Proof.
  induction zone_parts as [|p rest IH]; [apply Forall_nil_2|].
  destruct rest as [|q rest]; [apply Forall_nil_2|].
  rewrite private_zone_walk_cons.
  repeat first [exact IH | apply private_zone_scan_no_change | trace_step].
Qed.

Lemma get_private_zone_id_no_change route53_client vpc_id region zone_name :
  Forall no_change (trace (get_private_zone_id route53_client vpc_id region zone_name)).
Proof.
  unfold get_private_zone_id.
  repeat first [apply private_zone_walk_no_change | trace_step].
Qed.

Lemma public_zone_walk_no_change hosted_zones zone_parts :
  Forall no_change (trace (public_zone_walk hosted_zones zone_parts)).
Proof.
  induction zone_parts as [|p rest IH]; [apply Forall_nil_2|].
  destruct rest as [|q rest]; [apply Forall_nil_2|].
  rewrite public_zone_walk_cons. repeat first [exact IH | trace_step].
Qed.

Lemma get_public_zone_id_no_change route53 zone_name :
  Forall no_change (trace (get_public_zone_id route53 zone_name)).
Proof.
  unfold get_public_zone_id.
  repeat first [apply public_zone_walk_no_change | trace_step].
Qed.

Lemma get_aliases_no_change route53_client vpc_id region tags aliases_tag alias_type
    default_dns_domain :
  Forall no_change (trace (get_aliases route53_client vpc_id region tags aliases_tag
                             alias_type default_dns_domain)).
Proof.
  unfold get_aliases. destruct (tags !! _); [|apply Forall_nil_2].
  apply Forall_trace_for_each. intros settings alias.
  unfold get_aliases_body. cbv zeta.
  repeat first [ apply get_private_zone_id_no_change | apply get_public_zone_id_no_change
               | trace_step ].
Qed.

Lemma get_dns_domain_no_change environ ec2_client vpc_id region tags :
  Forall no_change (trace (get_dns_domain environ ec2_client vpc_id region tags)).
Proof.
  unfold get_dns_domain, get_dhcp_options_domain. cbv zeta. repeat trace_step.
Qed.

Lemma get_hostname_no_change environ tags :
  Forall no_change (trace (get_hostname environ tags)).
Proof. unfold get_hostname. cbv zeta. repeat trace_step. Qed.

Lemma change_record_well_formed route53_client zone record_type record_name record_data :
  record_type = "A" \/ record_type = "PTR" ->
  Forall well_formed_change
    (trace (change_record "UPSERT" route53_client zone record_type record_name record_data)).
Proof.
  intros Htype. unfold change_record.
  apply Forall_trace_bind.
  - apply Forall_cons_2; [|apply Forall_nil_2]. cbn. eauto 6.
  - intros _. repeat trace_step.
Qed.

Lemma register_aliases_well_formed route53_client visibility ip aliases records :
  Forall well_formed_change
    (trace (for_each aliases (register_alias route53_client visibility ip) records)).
Proof.
  apply Forall_trace_for_each. intros acc [alias settings]. unfold register_alias.
  repeat first [ apply change_record_well_formed; by left | trace_step ].
Qed.

(** X21: every record change [register_host] submits is an upsert of an A or
    a PTR record with a TTL of 300 seconds, under a name that ends in a dot;
    it never deletes a record. *)
Theorem register_host_changes_well_formed environ route53_client ec2_client region
    instance_id :
  Forall well_formed_change
    (trace (register_host environ route53_client ec2_client region instance_id)).
Proof.
  unfold register_host, index. cbv zeta.
  repeat first
    [ apply no_change_well_formed, get_private_zone_id_no_change
    | apply no_change_well_formed, get_aliases_no_change
    | apply no_change_well_formed, get_dns_domain_no_change
    | apply no_change_well_formed, get_hostname_no_change
    | apply register_aliases_well_formed
    | apply change_record_well_formed; by (left + right)
    | trace_step ].
Qed.

(** ** Zone locator, continued *)

(** X22: the private lookup is longest-suffix-first too: but for the literal
    name "{}.compute.internal", it returns the first zone of the catalog
    that is private, bears the name of the first candidate that has such a
    zone, and is attached to the network; a zone of the full name wins over
    a zone of a parent domain. *)
Theorem private_lookup_longest_suffix_first route53_client vpc_id region zone_name :
  zone_name <> "{}.compute.internal" ->
  outcome (get_private_zone_id route53_client vpc_id region (Some zone_name))
  = Ok (first_match (private_hit route53_client vpc_id) (list_hosted_zones route53_client)
          (zone_candidates zone_name)).
Proof.
  intros Hname%String.eqb_neq. by rewrite get_private_zone_id_outcome, Hname.
Qed.

Lemma private_lookup_longest_suffix_first_witness :
  outcome (get_private_zone_id
             (mkRoute53Client
                [mkHostedZone "Z1" "corp.internal." (Some (mkHostedZoneConfig (Some true)));
                 mkHostedZone "Z2" "eu.corp.internal." (Some (mkHostedZoneConfig (Some true)))]
                (fun _ => [mkVPC (Some "vpc-1")]) (fun _ _ _ _ _ _ => true))
             "vpc-1" "eu-west-1" (Some "db.eu.corp.internal"))
  = Ok (Some "Z2").
Proof.
  refine (eq_trans (private_lookup_longest_suffix_first _ "vpc-1" "eu-west-1"
                      "db.eu.corp.internal" _) _).
  - discriminate.
  - vm_compute. reflexivity.
Defined.
